(** * StudyBuddyAI: the LLM response orchestration layer

    A shallow embedding of the Python sources

      - [utils/formatters.py]            (Response Normalizer)
      - [utils/validators.py]            (input checks)
      - [prompts/templates.py]           (Prompt Builder)
      - [services/openrouter_client.py]  (Model Gateway)
      - [utils/state.py], [backend/controller.py] (Orchestrator)

    and the properties of the specification that concern them.

    Conventions of the embedding.

    - A Python [str] is a Rocq [string], one character per code point,
      for code points below 256.  [isspace] and [lower] follow Python on
      that range.  The few source literals with characters beyond it (an
      en dash, emoji) are transcribed by their UTF-8 bytes; none of these
      bytes is a white space or a cased letter for the functions below.
    - An exception is a value: functions that can raise return a
      [Result], whose error side tells an [LLMError] from any other
      Python exception.
    - The network, the OCR engine and the image lookup are oracles
      (variables of a section); the UI calls and the calls of the model
      endpoint are recorded in a log. *)

From Stdlib Require Import String Ascii List Bool Arith NArith ZArith Lia.
From Stdlib Require Import DecimalString Strings.Byte.
Import ListNotations.

Set Warnings "-register-all,-abstract-large-number".

Open Scope list_scope.
Open Scope string_scope.

(* ================================================================= *)
(** ** Python strings *)

Module PyStr.

(** [c.isspace()] for a code point below 256: TAB..CR, FS..US, SPACE,
    NEL (0x85) and NBSP (0xA0). *)
Definition isspace (c : ascii) : bool :=
  let n := N_of_ascii c in
  ((9 <=? n) && (n <=? 13) || (28 <=? n) && (n <=? 32)
   || (n =? 133) || (n =? 160))%N.

(** [c.lower()] for a code point below 256: A..Z and the Latin-1
    capitals (0xC0..0xDE but the multiplication sign 0xD7). *)
Definition lower_char (c : ascii) : ascii :=
  let n := N_of_ascii c in
  if ((65 <=? n) && (n <=? 90)
      || (192 <=? n) && (n <=? 222) && negb (n =? 215))%N
  then ascii_of_N (n + 32) else c.

Fixpoint lower (s : string) : string :=
  match s with
  | EmptyString => EmptyString
  | String c s' => String (lower_char c) (lower s')
  end.

Fixpoint lstrip (s : string) : string :=
  match s with
  | EmptyString => EmptyString
  | String c s' => if isspace c then lstrip s' else s
  end.

Fixpoint rstrip (s : string) : string :=
  match s with
  | EmptyString => EmptyString
  | String c s' =>
      match rstrip s' with
      | EmptyString => if isspace c then EmptyString else String c EmptyString
      | r => String c r
      end
  end.

Definition strip (s : string) : string := rstrip (lstrip s).

(** [s.startswith(p)] *)
Definition startswith (s p : string) : bool := String.prefix p s.

(** [s.endswith(p)] *)
Definition endswith (s p : string) : bool :=
  let n := String.length s in
  let k := String.length p in
  Nat.leb k n && String.eqb (String.substring (n - k) k s) p.

(** [needle in hay] *)
Fixpoint contains (needle hay : string) : bool :=
  String.prefix needle hay
  || match hay with
     | EmptyString => false
     | String _ hay' => contains needle hay'
     end.

(** Truth value of a [str]: [bool(s)]. *)
Definition truthy (s : string) : bool :=
  match s with EmptyString => false | _ => true end.

(** [str(n)] for a natural number. *)
Definition of_nat (n : nat) : string := NilZero.string_of_uint (Nat.to_uint n).

(** ["\n".join(lines)] *)
Fixpoint join (sep : string) (l : list string) : string :=
  match l with
  | [] => ""
  | [x] => x
  | x :: rest => x ++ sep ++ join sep rest
  end.

(** [c * n] for a one-character string. *)
Fixpoint replicate (n : nat) (c : ascii) : string :=
  match n with
  | O => EmptyString
  | S k => String c (replicate k c)
  end.

(** ASCII letters, for [title]. *)
Definition is_ascii_upper (c : ascii) : bool :=
  let n := N_of_ascii c in ((65 <=? n) && (n <=? 90))%N.
Definition is_ascii_lower (c : ascii) : bool :=
  let n := N_of_ascii c in ((97 <=? n) && (n <=? 122))%N.
Definition upper_ascii (c : ascii) : ascii :=
  if is_ascii_lower c then ascii_of_N (N_of_ascii c - 32) else c.

(** [s.title()] for an ASCII string: a letter that follows a letter is
    lowered, another letter is raised, the rest is kept. *)
Fixpoint title_from (previous_cased : bool) (s : string) : string :=
  match s with
  | EmptyString => EmptyString
  | String c s' =>
      if is_ascii_upper c || is_ascii_lower c
      then String (if previous_cased then lower_char c else upper_ascii c)
                  (title_from true s')
      else String c (title_from false s')
  end.

Definition title (s : string) : string := title_from false s.

(** The line feed ["\n"]. *)
Definition nl : string := String (ascii_of_nat 10) EmptyString.

End PyStr.

Import PyStr.

(* ================================================================= *)
(** ** utils/formatters.py *)

Module formatters.

Definition ensure_markdown_headings (text : string) : string :=
  if negb (truthy text) then text
  else
    let stripped := lstrip text in
    if startswith stripped "#" then text
    else "### Answer" ++ nl ++ nl ++ text.

End formatters.

(* ================================================================= *)
(** ** utils/validators.py *)

Module validators.

(** What the caller may pass for [text]: [None], a [str], or an object
    of another type. *)
Inductive TextArg : Type :=
| ArgNone
| ArgStr (s : string)
| ArgOther.

Definition validate_text_input (text : TextArg) (field_name : string)
  : bool * string :=
  match text with
  | ArgNone => (false, "Please provide " ++ field_name ++ ".")
  | ArgOther => (false, "The " ++ field_name ++ " must be text.")
  | ArgStr s =>
      if negb (truthy (strip s))
      then (false, "Please enter some " ++ field_name ++ ".")
      else if (8000 <? Z.of_nat (String.length s))%Z
      then (false, "The " ++ field_name
                     ++ " is too long. Please shorten it a bit.")
      else (true, "")
  end.

(** An uploaded file as the controller sees it: a name and bytes. *)
Record UploadedFile : Type := {
  name : string;
  data : list byte
}.

Definition validate_image_file (file_obj : option UploadedFile)
  : bool * string :=
  match file_obj with
  | None => (false, "Please upload an image first.")
  | Some f =>
      let filename := lower (name f) in
      if negb (endswith filename ".jpg" || endswith filename ".jpeg"
               || endswith filename ".png")
      then (false, "Unsupported file type. Please upload a JPG or PNG image.")
      else (true, "")
  end.

End validators.

(* ================================================================= *)
(** ** prompts/templates.py *)

Module templates.

(** One entry of the legacy chat history: [{"user": ..., "assistant": ...}];
    a missing key reads as the empty string ([msg.get(k, "")]). *)
Record Exchange : Type := {
  user : string;
  assistant : string
}.

(** [xs[-3:]] *)
Definition last3 {A : Type} (xs : list A) : list A :=
  skipn (List.length xs - 3) xs.

Definition _format_chat_history (chat_history : list Exchange) : string :=
  match chat_history with
  | [] => ""
  | _ =>
      let recent := last3 chat_history in
      let lines :=
        flat_map
          (fun msg =>
             List.app
               (if truthy (user msg) then ["Student: " ++ user msg] else [])
               (if truthy (assistant msg)
                then ["Tutor: " ++ assistant msg] else []))
          recent in
      join nl lines
  end.

(** [x or default] for an optional string. *)
Definition or_default (x : option string) (default : string) : string :=
  match x with
  | Some s => if truthy s then s else default
  | None => default
  end.

Definition explain_instruction : string :=
  "Explain the topic step by step in simple language. "
  ++ "Use short sentences, everyday examples, and clear headings.".

(** The dictionary [task_instructions], in the order of the source. *)
Definition task_instructions : list (string * string) :=
  [ ("Explain", explain_instruction);
    ("Examples",
     "Provide several practical examples that illustrate the main ideas. "
     ++ "Start with very easy examples, then slightly harder ones.");
    ("Practice Questions",
     "Create 3–7 practice questions with answers and brief explanations. "
     ++ "Include a mix of easy and moderate questions.");
    ("Quiz",
     "Create a short quiz of 5 questions. "
     ++ "Show the correct answers and short explanations at the end.");
    ("Study Plan",
     "Create a clear, structured study plan with daily or weekly steps, "
     ++ "estimated time, and learning goals for each step.") ].

(** [d.get(key, default)] on a dictionary with string keys. *)
Fixpoint dict_get {V : Type} (d : list (string * V)) (key : string)
  (default : V) : V :=
  match d with
  | [] => default
  | (k, v) :: d' => if String.eqb k key then v else dict_get d' key default
  end.

(** The keys of [task_instructions]: the known task types. *)
Definition known_task_types : list string := map fst task_instructions.

Definition build_text_tutor_prompt (user_input : string)
  (student_level task_type : option string)
  (chat_history : option (list Exchange)) : string :=
  let level := strip (or_default student_level "Beginner") in
  let task := strip (or_default task_type "Explain") in
  let base_instructions :=
    nl ++ "You are **StudyBuddy AI**, a friendly and patient tutor helping a "
    ++ lower level ++ " student." ++ nl
    ++ nl
    ++ "Student level: " ++ level ++ nl
    ++ "Requested task type: " ++ task ++ nl in
  let task_text :=
    dict_get task_instructions task
      (dict_get task_instructions "Explain" "") in
  let history_text :=
    _format_chat_history
      (match chat_history with Some h => h | None => [] end) in
  let history_block :=
    if truthy history_text
    then "Previous conversation:" ++ nl ++ history_text ++ nl ++ nl
    else "" in
  base_instructions ++ nl
  ++ history_block
  ++ "Your job:" ++ nl
  ++ task_text ++ nl ++ nl
  ++ "Student's question or topic:" ++ nl
  ++ user_input ++ nl ++ nl
  ++ "Please respond in Markdown with:" ++ nl
  ++ "- Clear headings (### ...)" ++ nl
  ++ "- Bullet points for lists" ++ nl
  ++ "- Step-by-step explanations where helpful" ++ nl
  ++ "- A short recap section at the end titled 'Summary'" ++ nl.

Definition build_image_solver_prompt (ocr_text : string) (is_question : bool)
  : string :=
  let mode_text :=
    if is_question
    then "The text below is a question or problem that the student wants you to solve."
    else "The text below contains notes or textbook-style explanations that the student wants you to explain." in
  let task_text :=
    if is_question
    then "1. Briefly restate what the question is asking." ++ nl
         ++ "2. Solve it step by step, showing your reasoning." ++ nl
         ++ "3. Explain each step in simple, beginner-friendly language." ++ nl
         ++ "4. If there are formulas, name and explain them." ++ nl
         ++ "5. Finish with a short recap of the main idea."
    else "1. Identify the main ideas and key concepts." ++ nl
         ++ "2. Explain each part in simple, clear language." ++ nl
         ++ "3. Use headings and bullet points to organize the explanation." ++ nl
         ++ "4. Add a short recap of the big picture at the end." in
  "You are **StudyBuddy AI**, a friendly tutor." ++ nl ++ nl
  ++ mode_text ++ nl ++ nl
  ++ "Here is the text extracted from the student's image:" ++ nl
  ++ "-----" ++ nl
  ++ ocr_text ++ nl
  ++ "-----" ++ nl ++ nl
  ++ "Your tasks:" ++ nl
  ++ task_text ++ nl ++ nl
  ++ "Respond in Markdown with clear headings and bullet points.".

Definition build_explain_notes_text_prompt (notes_text : string) : string :=
  "You are **StudyBuddy AI**, a careful tutor." ++ nl ++ nl
  ++ "The student has pasted their own notes. Your job is ONLY to explain and clarify" ++ nl
  ++ "what is already written in the notes. **Do not add any new facts, formulas, or examples**" ++ nl
  ++ "that are not clearly present in the notes, unless the student later asks for more." ++ nl ++ nl
  ++ "Here are the student's notes:" ++ nl
  ++ "-----" ++ nl
  ++ notes_text ++ nl
  ++ "-----" ++ nl ++ nl
  ++ "Please:" ++ nl
  ++ "- Explain each part in simple, clear language." ++ nl
  ++ "- Clarify any confusing or technical words using only the information present." ++ nl
  ++ "- Organize the explanation with headings and bullet points." ++ nl
  ++ "- End with a short 'Summary of Your Notes' section." ++ nl.

Definition build_explain_notes_image_prompt (ocr_text : string) : string :=
  "You are **StudyBuddy AI**, a careful tutor." ++ nl ++ nl
  ++ "The student took a photo of their notes or textbook. The text below is the" ++ nl
  ++ "content we could read from that image. Your job is ONLY to explain and clarify" ++ nl
  ++ "what is already written there. **Do not add new facts, formulas, or examples**" ++ nl
  ++ "that are not clearly present in the text below." ++ nl ++ nl
  ++ "Extracted text from the student's image:" ++ nl
  ++ "-----" ++ nl
  ++ ocr_text ++ nl
  ++ "-----" ++ nl ++ nl
  ++ "Please:" ++ nl
  ++ "- Explain the content in simple words." ++ nl
  ++ "- Clarify tricky or technical parts using only this text." ++ nl
  ++ "- Use headings and bullet points." ++ nl
  ++ "- End with a short 'Summary of What Your Notes Say' section." ++ nl.

End templates.

(* ================================================================= *)
(** ** utils/state.py *)

Module state.

(** One entry of the ChatGPT-style message list.  The key ["images"] is
    present only when [add_message] was given a non-empty list. *)
Record Message : Type := {
  role : string;
  content : string;
  images : option (list string)
}.

(** [st.session_state], restricted to the two keys of this module; a key
    that was never set is [None]. *)
Record SessionState : Type := {
  chat_history : option (list templates.Exchange);
  messages : option (list Message)
}.

Definition init_chat_state (st : SessionState) : SessionState :=
  {| chat_history :=
       match chat_history st with Some h => Some h | None => Some [] end;
     messages :=
       match messages st with Some m => Some m | None => Some [] end |}.

Definition get_chat_history (st : SessionState)
  : list templates.Exchange * SessionState :=
  let st' := init_chat_state st in
  (match chat_history st' with Some h => h | None => [] end, st').

Definition get_messages (st : SessionState) : list Message * SessionState :=
  let st' := init_chat_state st in
  (match messages st' with Some m => m | None => [] end, st').

Definition add_message (role : string) (content : string)
  (images : option (list string)) (st : SessionState) : SessionState :=
  let st' := init_chat_state st in
  let message :=
    {| role := role;
       content := content;
       images := match images with
                 | Some (u :: us) => Some (u :: us)
                 | _ => None
                 end |} in
  {| chat_history := chat_history st';
     messages :=
       Some (match messages st' with Some m => m | None => [] end
             ++ [message])%list |}.

Definition add_chat_message (user_input assistant_response : string)
  (st : SessionState) : SessionState :=
  let st' := init_chat_state st in
  {| chat_history :=
       Some (match chat_history st' with Some h => h | None => [] end
             ++ [ {| templates.user := user_input;
                     templates.assistant := assistant_response |} ])%list;
     messages := messages st' |}.

Definition clear_chat_history (st : SessionState) : SessionState :=
  {| chat_history := Some []; messages := Some [] |}.

End state.

(* ================================================================= *)
(** ** services/openrouter_client.py *)

Module openrouter_client.

Definition OPENROUTER_URL : string :=
  "https://openrouter.ai/api/v1/chat/completions".

Definition DEFAULT_MODEL : string := "xiaomi/mimo-v2-flash:free".

Definition FALLBACK_MODELS : list string :=
  [ "xiaomi/mimo-v2-flash:free";
    "mistralai/devstral-2-2512:free";
    "tngtech/deepseek-r1t2-chimera:free" ].

(** [class LLMError(Exception)]: the message and the flag. *)
Record LLMError : Type := {
  message : string;
  is_model_error : bool
}.

(** [LLMError(message)] with the default [is_model_error=False]. *)
Definition LLMError_ (message : string) : LLMError :=
  {| message := message; is_model_error := false |}.

(** A raised exception: an [LLMError], or an exception of another class,
    kept by its text [str(exc)]. *)
Inductive PyError : Type :=
| LLM (e : LLMError)
| OtherException (text : string).

(** [str(exc)] *)
Definition exc_str (e : PyError) : string :=
  match e with
  | LLM e => message e
  | OtherException text => text
  end.

Inductive Result (A : Type) : Type :=
| Return (a : A)
| Raise (e : PyError).
Arguments Return {A} a.
Arguments Raise {A} e.

Definition bind {A B : Type} (r : Result A) (k : A -> Result B) : Result B :=
  match r with
  | Return a => k a
  | Raise e => Raise e
  end.

Notation "x <- r ;; k" := (bind r (fun x => k))
  (at level 61, r at next level, right associativity).

(** *** Parsed JSON, as [response.json()] returns it *)

Inductive json : Type :=
| JNull
| JBool (b : bool)
| JInt (z : Z)
| JFloat (nonzero : bool)   (* a float, known by its truth value *)
| JStr (s : string)
| JArr (items : list json)
| JObj (fields : list (string * json)).

(** [bool(v)] *)
Definition json_truthy (v : json) : bool :=
  match v with
  | JNull => false
  | JBool b => b
  | JInt z => negb (Z.eqb z 0)
  | JFloat nonzero => nonzero
  | JStr s => truthy s
  | JArr items => match items with [] => false | _ => true end
  | JObj fields => match fields with [] => false | _ => true end
  end.

(** [type(v).__name__] *)
Definition type_name (v : json) : string :=
  match v with
  | JNull => "NoneType"
  | JBool _ => "bool"
  | JInt _ => "int"
  | JFloat _ => "float"
  | JStr _ => "str"
  | JArr _ => "list"
  | JObj _ => "dict"
  end.

(** The [AttributeError] of [v.attr] on a value that has no such method. *)
Definition no_attribute (v : json) (attr : string) : PyError :=
  OtherException
    ("'" ++ type_name v ++ "' object has no attribute '" ++ attr ++ "'").

(** [v.get(key, default)]: only a dict has [get]. *)
Definition json_get (v : json) (key : string) (default : json)
  : Result json :=
  match v with
  | JObj fields => Return (templates.dict_get fields key default)
  | _ => Raise (no_attribute v "get")
  end.

(** [v[0]] *)
Definition json_index0 (v : json) : Result json :=
  match v with
  | JArr (x :: _) => Return x
  | JArr [] => Raise (OtherException "list index out of range")
  | JStr (String c _) => Return (JStr (String c EmptyString))
  | JStr EmptyString => Raise (OtherException "string index out of range")
  | JObj _ => Raise (OtherException "0")      (* KeyError(0): keys are strings *)
  | _ => Raise (OtherException
                  ("'" ++ type_name v ++ "' object is not subscriptable"))
  end.

(** *** The HTTP exchange *)

(** A message of the wire format: [{"role": ..., "content": ...}]. *)
Record ChatMessage : Type := {
  role : string;
  content : string
}.

(** What [requests.post] is given: the bearer header and the payload. *)
Record Request : Type := {
  req_url : string;
  req_authorization : string;
  req_model : string;
  req_messages : list ChatMessage;
  req_temperature : string;   (* the literal of the float, e.g. "0.5" *)
  req_max_tokens : nat
}.

(** [response.json()]: the parsed body, or the text of the exception. *)
Inductive JsonBody : Type :=
| Parsed (data : json)
| NotJson (exc : string).

Record Response : Type := {
  status_code : nat;
  json_body : JsonBody;
  text : string
}.

(** What a call of [requests.post] does, by the handler that takes it. *)
Inductive PostOutcome : Type :=
| ConnectionError
| Timeout
| OtherFailure (exc : string)
| Responded (response : Response).

(** *** openrouter_chat *)

Section Gateway.

(** The remote endpoint: what [requests.post] does with a request. *)
Variable post : Request -> PostOutcome.

Definition valid_prefixes : list string := ["sk-or-v1-"; "sk-or-v1"; "sk-"].

Definition key_required_error : LLMError :=
  LLMError_ ("OpenRouter API key is required. "
             ++ "Please set it in the .env file or environment variables.").

Definition key_format_error : LLMError :=
  LLMError_ ("Invalid API key format. OpenRouter API keys should start with 'sk-or-v1-' or 'sk-'. "
             ++ "Please check your .env file and get a valid key from https://openrouter.ai/keys").

Definition auth_failed_error : LLMError :=
  {| message :=
       "Authentication failed. Your OpenRouter API key is invalid or expired. "
       ++ "Please check your `.env` file and ensure the key starts with 'sk-or-v1-'. "
       ++ "Get a new key at: https://openrouter.ai/keys";
     is_model_error := false |}.

Definition rate_limit_error : LLMError :=
  {| message := "Rate limit exceeded. Please wait a moment and try again.";
     is_model_error := false |}.

Definition generic_auth_msg : string :=
  "API authentication error. Please check your API key in the .env file.".

(** The [try] block that reads the error body of a non-200 response:
    [data.get("error", {}).get("message", "") or data.get("message", "")
     or response.text], and [response.text] when anything in it raises. *)
Definition extract_error_msg (response : Response) : json :=
  match json_body response with
  | NotJson _ => JStr (text response)
  | Parsed data =>
      let attempt :=
        err <- json_get data "error" (JObj []) ;;
        m1 <- json_get err "message" (JStr "") ;;
        if json_truthy m1 then Return m1
        else
          m2 <- json_get data "message" (JStr "") ;;
          if json_truthy m2 then Return m2
          else Return (JStr (text response)) in
      match attempt with
      | Return v => v
      | Raise _ => JStr (text response)
      end
  end.

(** The part of [openrouter_chat] after [requests.post] returned. *)
Definition handle_response (response : Response) : Result json :=
  if negb (Nat.eqb (status_code response) 200) then
    let error_msg := extract_error_msg response in
    if Nat.eqb (status_code response) 401 then Raise (LLM auth_failed_error)
    else if Nat.eqb (status_code response) 429 then Raise (LLM rate_limit_error)
    else
      match error_msg with
      | JStr error_msg =>
          let error_lower := lower error_msg in
          let is_model_error :=
            contains "model" error_lower
            && (contains "not found" error_lower
                || contains "invalid" error_lower) in
          let user_friendly_msg :=
            if contains "key" error_lower || contains "api" error_lower
               || contains "auth" error_lower
            then generic_auth_msg
            else error_msg in
          Raise (LLM {| message :=
                          "OpenRouter API error (status "
                          ++ of_nat (status_code response) ++ "): "
                          ++ user_friendly_msg;
                        is_model_error := is_model_error |})
      | other => Raise (no_attribute other "lower")
      end
  else
    match json_body response with
    | NotJson exc =>
        Raise (LLM (LLMError_
                      ("Failed to parse response from OpenRouter: " ++ exc)))
    | Parsed data =>
        choices <- json_get data "choices" (JArr []) ;;
        if negb (json_truthy choices)
        then Raise (LLM (LLMError_
                           "Received an empty response from OpenRouter."))
        else
          first <- json_index0 choices ;;
          message <- json_get first "message" (JObj []) ;;
          text <- json_get message "content" JNull ;;
          if negb (json_truthy text)
          then Raise (LLM (LLMError_
                             "Received an empty response from the LLM."))
          else Return text
    end.

Definition openrouter_chat (messages : list ChatMessage) (api_key : string)
  (model : string) (temperature : string) (max_tokens : nat) : Result json :=
  if negb (truthy api_key) || negb (truthy (strip api_key))
  then Raise (LLM key_required_error)
  else
    let api_key_clean := strip api_key in
    if negb (existsb (fun prefix => startswith api_key_clean prefix)
               valid_prefixes)
    then Raise (LLM key_format_error)
    else
      match messages with
      | [] => Raise (LLM (LLMError_
                            "Messages list is empty. Cannot generate a response."))
      | _ =>
          match post {| req_url := OPENROUTER_URL;
                        req_authorization := "Bearer " ++ api_key;
                        req_model := model;
                        req_messages := messages;
                        req_temperature := temperature;
                        req_max_tokens := max_tokens |} with
          | ConnectionError =>
              Raise (LLM (LLMError_
                            "Could not connect to OpenRouter API. Please check your internet connection."))
          | Timeout =>
              Raise (LLM (LLMError_
                            "The request to OpenRouter timed out. Please try again."))
          | OtherFailure exc =>
              Raise (LLM (LLMError_
                            ("Unexpected error while calling OpenRouter: "
                             ++ exc)))
          | Responded response => handle_response response
          end
      end.

End Gateway.

(** *** generate_llm_response *)

Section Fallback.

Variable post : Request -> PostOutcome.

Definition default_system_message : string :=
  "You are StudyBuddy AI, a friendly and patient tutor helping students learn.".

(** [x in xs] for strings. *)
Definition str_in (x : string) (xs : list string) : bool :=
  existsb (String.eqb x) xs.

(** The messages array: system message, filtered history, the prompt. *)
Definition build_messages (prompt : string)
  (chat_history : option (list state.Message)) (system_message : string)
  : list ChatMessage :=
  List.app
    (if truthy system_message
     then [ {| role := "system"; content := system_message |} ]
     else [])
    (List.app
       (match chat_history with
        | Some history =>
            flat_map
              (fun msg =>
                 let role := state.role msg in
                 let content := state.content msg in
                 if str_in role ["user"; "assistant"] && truthy content
                 then [ {| role := role; content := content |} ]
                 else [])
              history
        | None => []
        end)
       [ {| role := "user"; content := prompt |} ]).

(** "Determine which models to try". *)
Definition models_to_try (model : string) : list string :=
  if negb (str_in model FALLBACK_MODELS)
  then List.app [model] FALLBACK_MODELS
  else
    fold_left
      (fun models_to_try fallback =>
         if negb (String.eqb fallback model)
            && negb (str_in fallback models_to_try)
         then List.app models_to_try [fallback]
         else models_to_try)
      FALLBACK_MODELS [model].

(** How the [for] loop over the candidates is left. *)
Inductive LoopExit : Type :=
| Returned (text : string)                  (* [return] inside the loop *)
| Propagated (e : PyError)                  (* an exception the loop does not catch *)
| Finished (last_error : option LLMError).  (* [break], or the list ran out *)

(** [ensure_markdown_headings(raw)] on what [openrouter_chat] returned.
    [raw] is truthy there, so the [if not text] test fails; a value that
    is not a [str] has no [lstrip]. *)
Definition normalize (raw : json) : Result string :=
  match raw with
  | JStr s => Return (formatters.ensure_markdown_headings s)
  | other => Raise (no_attribute other "lstrip")
  end.

(** The loop "Try models in order".  [chat model_to_try] is the call of
    [openrouter_chat], [final] is [models_to_try[-1]].  The second
    component lists the models [openrouter_chat] was called with. *)
Fixpoint try_models (chat : string -> Result json) (final : string)
  (candidates : list string) (last_error : option LLMError)
  : LoopExit * list string :=
  match candidates with
  | [] => (Finished last_error, [])
  | model_to_try :: rest =>
      match chat model_to_try with
      | Return raw =>
          (match normalize raw with
           | Return text => Returned text
           | Raise e => Propagated e
           end, [model_to_try])
      | Raise (OtherException text) =>
          (Propagated (OtherException text), [model_to_try])
      | Raise (LLM exc) =>
          if is_model_error exc && negb (String.eqb model_to_try final)
          then (* continue *)
            let (exit, tried) := try_models chat final rest (Some exc) in
            (exit, model_to_try :: tried)
          else if negb (is_model_error exc)
          then (* break *)
            (Finished (Some exc), [model_to_try])
          else (* the body ends; the loop goes on *)
            let (exit, tried) := try_models chat final rest (Some exc) in
            (exit, model_to_try :: tried)
      end
  end.

Definition generate_llm_response (prompt : string) (api_key : string)
  (model : string) (chat_history : option (list state.Message))
  (system_message : string) : Result string * list string :=
  if negb (truthy prompt) || negb (truthy (strip prompt))
  then (Raise (LLM (LLMError_ "Prompt is empty. Cannot generate a response.")),
        [])
  else
    let messages := build_messages prompt chat_history system_message in
    let models_to_try := models_to_try model in
    let (exit, tried) :=
      try_models
        (fun model_to_try =>
           openrouter_chat post messages api_key model_to_try "0.5" 700)
        (List.last models_to_try "") models_to_try None in
    (match exit with
     | Returned text => Return text
     | Propagated e => Raise e
     | Finished (Some last_error) =>
         Raise (LLM (LLMError_
                       ("Failed to generate response after trying "
                        ++ of_nat (List.length models_to_try)
                        ++ " model(s). Last error: "
                        ++ message last_error)))
     | Finished None =>
         Raise (LLM (LLMError_
                       "Failed to generate response from OpenRouter."))
     end, tried).

End Fallback.

End openrouter_client.

(* ================================================================= *)
(** ** model/llm_client.py *)

Module llm_client.

Definition generate_llm_response (post : openrouter_client.Request ->
                                         openrouter_client.PostOutcome)
  (prompt api_key model : string) (chat_history : option (list state.Message))
  : openrouter_client.Result string * list string :=
  openrouter_client.generate_llm_response post prompt api_key model
    chat_history openrouter_client.default_system_message.

End llm_client.

(* ================================================================= *)
(** ** utils/image_fetcher.py *)

Module image_fetcher.

Definition image_keywords : list string :=
  [ "show me an image"; "show me a picture"; "show me a photo";
    "give me an image"; "give me a picture"; "give me a photo";
    "display an image"; "display a picture"; "display a photo";
    "image of"; "picture of"; "photo of";
    "show image"; "show picture"; "show photo";
    "provide me image"; "provide me a image";
    "send me image"; "send me a image" ].

Definition detect_image_request (user_text : string) : bool :=
  if negb (truthy user_text) then false
  else
    let text_lower := lower user_text in
    existsb (fun keyword => contains keyword text_lower) image_keywords.

(** [fetch_images], over the Wikipedia lookup [fetch_wikipedia_images]. *)
Definition fetch_images
  (fetch_wikipedia_images : string -> nat -> list string)
  (query : string) (limit : nat) : list string * string :=
  if negb (truthy query) then ([], "none")
  else
    match fetch_wikipedia_images query limit with
    | [] => ([], "none")
    | images => (images, "wikipedia")
    end.

(** *** The Wikipedia lookup *)

Section Lookup.

Import openrouter_client.

(** What [requests.get] is given: the URL and the query parameters. *)
Record GetRequest : Type := {
  get_url : string;
  get_params : list (string * string)
}.

(** What a call of [requests.get] does: it raises, or it responds. *)
Inductive GetOutcome : Type :=
| GetFailed
| GetResponse (response : Response).

(** Wikipedia, [urllib.parse.quote] and [str.title]. *)
Variable http_get : GetRequest -> GetOutcome.
Variable quote : string -> string.
Variable py_title : string -> string.

Definition _safe_image_url (url : json) : bool :=
  match url with
  | JStr s =>
      if negb (truthy s) then false
      else if negb (startswith s "http") then false
      else true
  | _ => false     (* [not isinstance(url, str)] *)
  end.

(** [u], when [_safe_image_url(u)] holds: then it is a [str]. *)
Definition safe_url (u : json) : option string :=
  match u with
  | JStr s => if _safe_image_url u then Some s else None
  | _ => None
  end.

(** [s.replace(old, new)] for one-character [old] and [new]. *)
Fixpoint replace_char (old new : ascii) (s : string) : string :=
  match s with
  | EmptyString => EmptyString
  | String c s' =>
      String (if Ascii.eqb c old then new else c) (replace_char old new s')
  end.

Definition fetch_wikipedia_summary_image (title : string) : list string :=
  if negb (truthy title) then []
  else
    match http_get
            {| get_url :=
                 "https://en.wikipedia.org/api/rest_v1/page/summary/"
                 ++ quote title;
               get_params := [] |} with
    | GetFailed => []
    | GetResponse response =>
        if negb (Nat.eqb (status_code response) 200) then []
        else
          match json_body response with
          | NotJson _ => []
          | Parsed (JObj data) =>
              if match templates.dict_get data "type" JNull with
                 | JStr kind => String.eqb kind "disambiguation"
                 | _ => false
                 end
              then []
              else
                  let urls : list string := [] in
                  let thumb := templates.dict_get data "thumbnail" JNull in
                  let urls :=
                    match thumb with
                    | JObj thumb =>
                        match safe_url
                                (templates.dict_get thumb "source" JNull) with
                        | Some u => List.app urls [u]
                        | None => urls
                        end
                    | _ => urls
                    end in
                  let orig := templates.dict_get data "originalimage" JNull in
                  match orig with
                  | JObj orig =>
                      match safe_url
                              (templates.dict_get orig "source" JNull) with
                      | Some u =>
                          if negb (str_in u urls) then List.app urls [u]
                          else urls
                      | None => urls
                      end
                  | _ => urls
                  end
          | Parsed _ => []    (* [data.get] raises; the handler returns [] *)
          end
    end.

(** The loop over [results]: the titles, or [None] when an item has no
    [get] (the exception empties the result). *)
Fixpoint collect_titles (results : list json) : option (list string) :=
  match results with
  | [] => Some []
  | JObj item :: rest =>
      match collect_titles rest with
      | None => None
      | Some titles =>
          match templates.dict_get item "title" JNull with
          | JStr t => Some (if truthy t then t :: titles else titles)
          | _ => Some titles
          end
      end
  | _ :: _ => None
  end.

Definition wikipedia_search_titles (query : string) (limit : nat)
  : list string :=
  if negb (truthy query) then []
  else
    match http_get
            {| get_url := "https://en.wikipedia.org/w/api.php";
               get_params :=
                 [ ("action", "query"); ("format", "json");
                   ("list", "search"); ("srsearch", query);
                   ("srlimit", of_nat limit) ] |} with
    | GetFailed => []
    | GetResponse r =>
        (* [r.raise_for_status()] *)
        if Nat.leb 400 (status_code r) && Nat.ltb (status_code r) 600 then []
        else
          match json_body r with
          | NotJson _ => []
          | Parsed data =>
              match (query_part <- json_get data "query" (JObj []) ;;
                     json_get query_part "search" (JArr [])) with
              | Return (JArr results) =>
                  match collect_titles results with
                  | Some titles => titles
                  | None => []
                  end
              | Return _ => []   (* nothing to iterate, or an item without [get] *)
              | Raise _ => []
              end
          end
    end.

(** [for u in urls: if u not in images: images.append(u)] *)
Definition add_new (images urls : list string) : list string :=
  fold_left
    (fun images u => if negb (str_in u images) then List.app images [u]
                     else images)
    urls images.

(** "Remove duplicates": the list [variations_unique]; the set [seen]
    holds the same strings. *)
Definition unique_variations (variations : list string) : list string :=
  fold_left
    (fun variations_unique v =>
       if truthy v && negb (str_in v variations_unique)
       then List.app variations_unique [v]
       else variations_unique)
    variations [].

(** The first loop.  [inl] is a [return] inside the loop, [inr] the
    list [images] when the loop ends. *)
Fixpoint scan_variations (limit : nat) (variations : list string)
  (images : list string) : list string + list string :=
  match variations with
  | [] => inr images
  | v :: rest =>
      let urls := fetch_wikipedia_summary_image v in
      let images := add_new images urls in
      if Nat.leb limit (List.length images) then inl (firstn limit images)
      else scan_variations limit rest images
  end.

(** The inner loop of the second loop. *)
Fixpoint add_until (limit : nat) (urls : list string) (images : list string)
  : list string + list string :=
  match urls with
  | [] => inr images
  | u :: rest =>
      if negb (str_in u images) then
        let images := List.app images [u] in
        if Nat.leb limit (List.length images) then inl (firstn limit images)
        else add_until limit rest images
      else add_until limit rest images
  end.

(** The second loop. *)
Fixpoint scan_titles (limit : nat) (titles : list string)
  (images : list string) : list string + list string :=
  match titles with
  | [] => inr images
  | title :: rest =>
      let urls :=
        fetch_wikipedia_summary_image (replace_char " " "_" title) in
      match add_until limit urls images with
      | inl result => inl result
      | inr images => scan_titles limit rest images
      end
  end.

(** [limit] is a natural number here: [images[:limit]] is [firstn]. *)
Definition fetch_wikipedia_images (query : string) (limit : nat)
  : list string :=
  if negb (truthy query) then []
  else
    let images : list string := [] in
    let variations :=
      [ strip query;
        replace_char " " "_" (strip query);
        py_title (strip query);
        replace_char " " "_" (py_title (strip query)) ] in
    let variations_unique := unique_variations variations in
    match scan_variations limit variations_unique images with
    | inl result => result
    | inr images =>
        let titles := wikipedia_search_titles query 6 in
        match scan_titles limit titles images with
        | inl result => result
        | inr images => firstn limit images
        end
    end.

End Lookup.

End image_fetcher.

(* ================================================================= *)
(** ** utils/ocr.py *)

Module ocr.

(** What opening the image and running Tesseract on it does. *)
Inductive EngineOutcome : Type :=
| CannotOpen (exc : string)          (* [Image.open] raised *)
| TesseractNotFound                  (* [TesseractNotFoundError] *)
| EngineFailed (exc : string)        (* another exception of the engine *)
| Recognised (text : option string). (* [image_to_string] returned *)

Definition tesseract_not_found_msg : string :=
  "Tesseract OCR engine was not found on this system." ++ nl ++ nl
  ++ "📥 INSTALLATION STEPS:" ++ nl
  ++ "1. Download Tesseract for Windows from:" ++ nl
  ++ "   https://github.com/UB-Mannheim/tesseract/wiki" ++ nl
  ++ "   (Look for the latest 'tesseract-ocr-w64-setup-*.exe' file)" ++ nl ++ nl
  ++ "2. Run the installer and:" ++ nl
  ++ "   - Install to default location: C:\Program Files\Tesseract-OCR" ++ nl
  ++ "   - ✅ IMPORTANT: Check 'Add to PATH' during installation" ++ nl ++ nl
  ++ "3. After installation:" ++ nl
  ++ "   - Close and restart your terminal/IDE completely" ++ nl
  ++ "   - Restart the Streamlit app" ++ nl ++ nl
  ++ "💡 QUICK FIX (if Tesseract is already installed):" ++ nl
  ++ "Set the TESSERACT_CMD environment variable to your Tesseract path." ++ nl
  ++ "In PowerShell, run:" ++ nl
  ++ "  $env:TESSERACT_CMD='C:\Program Files\Tesseract-OCR\tesseract.exe'" ++ nl
  ++ "(Replace with your actual Tesseract path if different)" ++ nl ++ nl
  ++ "Then restart Streamlit. This is the easiest way to configure it!".

(** The result is the text, or the message of the [RuntimeError]. *)
Definition extract_text_from_image (engine : list byte -> EngineOutcome)
  (image_bytes : list byte) : string + string :=
  match image_bytes with
  | [] => inr "No image data provided for OCR."
  | _ =>
      match engine image_bytes with
      | CannotOpen exc => inr ("Failed to open image: " ++ exc)
      | TesseractNotFound => inr tesseract_not_found_msg
      | EngineFailed exc => inr ("OCR failed: " ++ exc)
      | Recognised text => inl (templates.or_default text "")
      end
  end.

End ocr.

(* ================================================================= *)
(** ** backend/controller.py *)

Module controller.

Import openrouter_client.

(** What a flow does to the outside, in order: the calls of the UI
    module, of the image lookup and of the OCR helper, and each call of
    [generate_llm_response] with the models it called the endpoint for. *)
Inductive Event : Type :=
| ShowWarning (message : string)
| ShowError (message : string)
| ShowMarkdownSection (title content : string)
| ImageLookup (query : string) (limit : nat)
| OcrRun (image_bytes : list byte)
| ModelCall (prompt : string) (tried : list string).

(** The session store and the log of events. *)
Record World : Type := {
  session : state.SessionState;
  log : list Event
}.

Definition emit (e : Event) (w : World) : World :=
  {| session := session w; log := List.app (log w) [e] |}.

Definition on_session (f : state.SessionState -> state.SessionState)
  (w : World) : World :=
  {| session := f (session w); log := log w |}.

(** The message list as stored now (the object [get_messages] returned). *)
Definition current_messages (w : World) : list state.Message :=
  fst (state.get_messages (session w)).

(** What [ui.render_text_chat_tab] returns. *)
Record TextChatInput : Type := {
  student_level : option string;
  task_type : option string;
  user_input : option string;
  clear_clicked : bool
}.

(** What [ui.render_image_solver_tab] returns. *)
Record ImageSolverInput : Type := {
  uploaded_file : option validators.UploadedFile;
  is_question : bool;
  solve_clicked : bool
}.

(** How an invocation of the text chat flow ends. *)
Inductive Outcome : Type :=
| Cleared      (* the chat was cleared, then [st.rerun()] *)
| NoInput      (* nothing was typed *)
| Rejected     (* the input failed validation: a warning *)
| Failed       (* the model call failed: an error message *)
| Completed.   (* the turn was handled, then [st.rerun()] *)

(** What [ui.render_explain_notes_tab] returns. *)
Record ExplainNotesInput : Type := {
  mode : string;
  notes_text : string;
  notes_uploaded_file : option validators.UploadedFile;
  explain_clicked : bool
}.



Section Flows.

Variable post : Request -> PostOutcome.
Variable extract_query : string -> string.
Variable fetch_wikipedia_images : string -> nat -> list string.
Variable engine : list byte -> ocr.EngineOutcome.

Definition auth_hint : string :=
  "❌ Authentication failed. Please check your API key in the .env file.".

Definition generic_failure : string :=
  "❌ Something went wrong while talking to the AI. Please try again.".

(** The [except Exception as exc] block of the model calls. *)
Definition show_model_error (exc : PyError) (w : World) : World :=
  let error_msg := exc_str exc in
  if contains "401" error_msg
     || contains "authentication" (lower error_msg)
     || contains "invalid" (lower error_msg)
  then emit (ShowError auth_hint) w
  else emit (ShowError generic_failure) w.

(** [generate_llm_response(...)] of [model/llm_client.py], logged. *)
Definition call_model (prompt api_key model : string)
  (chat_history : option (list state.Message)) (w : World)
  : Result string * World :=
  let (result, tried) :=
    llm_client.generate_llm_response post prompt api_key model chat_history in
  (result, emit (ModelCall prompt tried) w).

Definition _handle_text_chat_tab (api_key model : string)
  (ui_data : TextChatInput) (w : World) : Outcome * World :=
  let w := on_session state.init_chat_state w in     (* get_messages() *)
  if clear_clicked ui_data
  then (Cleared, on_session state.clear_chat_history w)
  else
    match user_input ui_data with
    | None => (NoInput, w)
    | Some EmptyString => (NoInput, w)
    | Some user_input =>
        let (is_valid, error_msg) :=
          validators.validate_text_input
            (validators.ArgStr user_input) "question/topic" in
        if negb is_valid then (Rejected, emit (ShowWarning error_msg) w)
        else
          let student_level := student_level ui_data in
          let task_type := task_type ui_data in
          (* [chat_history_for_llm = messages] is the stored list itself:
             it is read below as [current_messages], after the appends. *)
          let w := on_session (state.add_message "user" user_input None) w in
          if image_fetcher.detect_image_request user_input then
            let query := extract_query user_input in
            let w := emit (ImageLookup query 3) w in
            let (image_urls, source) :=
              image_fetcher.fetch_images fetch_wikipedia_images query 3 in
            match image_urls with
            | _ :: _ =>
                let info_prompt :=
                  "Provide a brief (2-3 sentence) informative response about: "
                  ++ query ++ ". "
                  ++ "Keep it concise since images will also be shown." in
                let (result, w) :=
                  call_model info_prompt api_key model
                    (Some (current_messages w)) w in
                let text_response :=
                  match result with
                  | Return text_response => text_response
                  | Raise _ => "Here are images related to " ++ query ++ "."
                  end in
                let source_note :=
                  if negb (String.eqb source "none")
                  then nl ++ nl ++ "*Images from " ++ title source ++ "*"
                  else "" in
                let response_content := text_response ++ source_note in
                (Completed,
                 on_session
                   (state.add_message "assistant" response_content
                      (Some image_urls)) w)
            | [] =>
                let w :=
                  on_session
                    (state.add_message "assistant"
                       "I couldn't find images for your request. Let me provide a text explanation instead."
                       None) w in
                let prompt :=
                  templates.build_text_tutor_prompt user_input student_level
                    task_type
                    (Some (fst (state.get_chat_history (session w)))) in
                let (result, w) :=
                  call_model prompt api_key model
                    (Some (current_messages w)) w in
                match result with
                | Return response =>
                    (Completed,
                     on_session
                       (state.add_message "assistant" response None) w)
                | Raise exc => (Failed, show_model_error exc w)
                end
            end
          else
            let prompt :=
              templates.build_text_tutor_prompt user_input student_level
                task_type
                (Some (fst (state.get_chat_history (session w)))) in
            let (result, w) :=
              call_model prompt api_key model (Some (current_messages w)) w in
            match result with
            | Raise exc => (Failed, show_model_error exc w)
            | Return response =>
                let w :=
                  on_session (state.add_message "assistant" response None) w in
                (Completed,
                 on_session (state.add_chat_message user_input response) w)
            end
    end.

Definition no_text_warning : string :=
  "I couldn't detect any readable text in the image. Please try a clearer photo.".

Definition _handle_image_solver_tab (api_key model : string)
  (ui_data : ImageSolverInput) (w : World) : World :=
  let uploaded_file := uploaded_file ui_data in
  let is_question := is_question ui_data in
  if negb (solve_clicked ui_data) then w
  else
    let (is_valid, error_msg) := validators.validate_image_file uploaded_file in
    if negb is_valid then emit (ShowWarning error_msg) w
    else
      match uploaded_file with
      | None => w      (* excluded by the validation above *)
      | Some file =>
          let image_bytes := validators.data file in
          let w := emit (OcrRun image_bytes) w in
          match ocr.extract_text_from_image engine image_bytes with
          | inr exc =>
              emit (ShowError ("❌ Could not read the image: " ++ exc)) w
          | inl ocr_text =>
              if negb (truthy ocr_text) || negb (truthy (strip ocr_text))
              then emit (ShowWarning no_text_warning) w
              else
                let prompt :=
                  templates.build_image_solver_prompt ocr_text is_question in
                let (result, w) := call_model prompt api_key model None w in
                match result with
                | Raise exc => show_model_error exc w
                | Return response =>
                    let combined :=
                      "### Extracted Text" ++ nl ++ nl ++ ocr_text ++ nl ++ nl
                      ++ "---" ++ nl ++ nl
                      ++ "### AI Explanation" ++ nl ++ nl ++ response in
                    emit (ShowMarkdownSection "📝 Explanation" combined) w
                end
          end
      end.

Definition _handle_explain_notes_tab (api_key model : string)
  (ui_data : ExplainNotesInput) (w : World) : World :=
  if negb (explain_clicked ui_data) then w
  else
    let mode := mode ui_data in
    if String.eqb mode "text" then
      let notes_text := notes_text ui_data in
      let (is_valid, error_msg) :=
        validators.validate_text_input (validators.ArgStr notes_text)
          "notes" in
      if negb is_valid then emit (ShowWarning error_msg) w
      else
        let prompt := templates.build_explain_notes_text_prompt notes_text in
        let (result, w) := call_model prompt api_key model None w in
        match result with
        | Raise exc => show_model_error exc w
        | Return response =>
            emit (ShowMarkdownSection "📝 Explanation" response) w
        end
    else
      (* Image mode *)
      let uploaded_file := notes_uploaded_file ui_data in
      let (is_valid, error_msg) :=
        validators.validate_image_file uploaded_file in
      if negb is_valid then emit (ShowWarning error_msg) w
      else
        match uploaded_file with
        | None => w      (* excluded by the validation above *)
        | Some file =>
            let image_bytes := validators.data file in
            let w := emit (OcrRun image_bytes) w in
            match ocr.extract_text_from_image engine image_bytes with
            | inr exc =>
                emit (ShowError ("❌ Could not read the image: " ++ exc)) w
            | inl ocr_text =>
                if negb (truthy ocr_text) || negb (truthy (strip ocr_text))
                then emit (ShowWarning no_text_warning) w
                else
                  let prompt :=
                    templates.build_explain_notes_image_prompt ocr_text in
                  let (result, w) :=
                    call_model prompt api_key model None w in
                  match result with
                  | Raise exc => show_model_error exc w
                  | Return response =>
                      let combined :=
                        "### Extracted Notes Text" ++ nl ++ nl ++ ocr_text
                        ++ nl ++ nl ++ "---" ++ nl ++ nl
                        ++ "### AI Explanation" ++ nl ++ nl ++ response in
                      emit (ShowMarkdownSection "📝 Explanation" combined) w
                  end
            end
        end.

End Flows.

End controller.

(* ================================================================= *)
(** ** Stubs for the scenarios *)

Module stubs.

Import openrouter_client.

Definition test_key : string := "sk-or-v1-test".

(** A non-200 response whose body is [{"error": {"message": body}}]. *)
Definition error_response (status : nat) (body : string) : Response :=
  {| status_code := status;
     json_body := Parsed (JObj [("error", JObj [("message", JStr body)])]);
     text := "" |}.

(** A 200 response with one completion. *)
Definition completion (answer : string) : Response :=
  {| status_code := 200;
     json_body :=
       Parsed
         (JObj [("choices",
                 JArr [JObj [("message",
                              JObj [("role", JStr "assistant");
                                    ("content", JStr answer)])]])]);
     text := "" |}.

(** The endpoint refuses the key. *)
Definition post_unauthorized (_ : Request) : PostOutcome :=
  Responded (error_response 401 "No auth credentials found").

(** The default model is unknown to the endpoint; every other answers. *)
Definition post_default_unavailable (request : Request) : PostOutcome :=
  if String.eqb (req_model request) DEFAULT_MODEL
  then Responded (error_response 404 "Model not found")
  else Responded (completion "Plants make food").

(** The endpoint fails with the body "API key". *)
Definition post_api_key_body (_ : Request) : PostOutcome :=
  Responded (error_response 500 "API key").

(** The endpoint answers every request. *)
Definition post_answers (_ : Request) : PostOutcome :=
  Responded (completion "Plants make food").

Definition extract_newton (_ : string) : string := "Isaac Newton".

Definition no_images (_ : string) (_ : nat) : list string := [].

Definition one_image (_ : string) (_ : nat) : list string :=
  ["https://upload.wikimedia.org/newton.jpg"].

(** The OCR engine reads nothing but a line feed. *)
Definition engine_blank (_ : list byte) : ocr.EngineOutcome :=
  ocr.Recognised (Some (" " ++ nl)).

Definition photo : validators.UploadedFile :=
  {| validators.name := "page.PNG"; validators.data := [x89; x50; x4e; x47] |}.

(** The endpoint knows none of the models. *)
Definition post_unavailable (_ : Request) : PostOutcome :=
  Responded (error_response 404 "Model not found").


Definition fresh_world : controller.World :=
  {| controller.session :=
       {| state.chat_history := None; state.messages := None |};
     controller.log := [] |}.

(** The user asks for a picture of Isaac Newton. *)
Definition ask_newton : controller.TextChatInput :=
  {| controller.student_level := Some "Beginner";
     controller.task_type := Some "Explain";
     controller.user_input := Some "show me an image of Isaac Newton";
     controller.clear_clicked := false |}.

(** The user asks a plain question. *)
Definition ask_photosynthesis : controller.TextChatInput :=
  {| controller.student_level := Some "Beginner";
     controller.task_type := Some "Explain";
     controller.user_input := Some "Explain photosynthesis";
     controller.clear_clicked := false |}.

(** The user uploads [photo] and clicks "Solve & Explain". *)
Definition solve_photo : controller.ImageSolverInput :=
  {| controller.uploaded_file := Some photo;
     controller.is_question := true;
     controller.solve_clicked := true |}.

End stubs.

(* ================================================================= *)
(** * Properties *)

(** ** Facts about Python strings *)

Section StringFacts.


Lemma truthy_true_iff (s : string) : truthy s = true <-> s <> "".
Proof.
  destruct s; simpl; split; intro H; try reflexivity; try discriminate H.
  - exfalso; apply H; reflexivity.
  - discriminate.
Qed.

Lemma prefix_append (p s : string) : String.prefix p (p ++ s) = true.
Proof.
  induction p as [|c p IH]; simpl.
  - destruct s; reflexivity.
  - destruct (ascii_dec c c) as [_|N]; [exact IH | exfalso; apply N; reflexivity].
Qed.

Lemma prefix_append_l (p q s : string) :
  String.prefix (p ++ q) s = true -> String.prefix p s = true.
Proof.
  revert s; induction p as [|c p IH]; intros [|d s] H; simpl in *;
    try reflexivity; try discriminate H.
  destruct (ascii_dec c d); [apply IH; exact H | discriminate H].
Qed.

Lemma contains_of_prefix (needle hay : string) :
  String.prefix needle hay = true -> contains needle hay = true.
Proof. destruct hay; simpl; intros ->; reflexivity. Qed.

Lemma contains_here (needle rest : string) :
  contains needle (needle ++ rest) = true.
Proof. apply contains_of_prefix, prefix_append. Qed.

Lemma contains_append_r (needle a b : string) :
  contains needle b = true -> contains needle (a ++ b) = true.
Proof.
  intro H; induction a as [|c a IH]; simpl; [exact H|].
  rewrite IH; apply orb_true_r.
Qed.

Lemma contains_middle (needle a b : string) :
  contains needle (a ++ needle ++ b) = true.
Proof. apply contains_append_r, contains_here. Qed.

Lemma lstrip_idempotent (s : string) : lstrip (lstrip s) = lstrip s.
Proof.
  induction s as [|c s IH]; simpl; [reflexivity|].
  destruct (isspace c) eqn:E; [exact IH | simpl; rewrite E; reflexivity].
Qed.

Lemma strip_empty : strip "" = "".
Proof. reflexivity. Qed.

Lemma length_replicate (n : nat) (c : ascii) :
  String.length (replicate n c) = n.
Proof. induction n; simpl; congruence. Qed.

Lemma lstrip_replicate_space (n : nat) : lstrip (replicate n " "%char) = "".
Proof. induction n; simpl; [reflexivity | exact IHn]. Qed.

End StringFacts.

(* ================================================================= *)
(** ** The Response Normalizer *)

Section Normalizer.

Import formatters.

Example ensure_empty : ensure_markdown_headings "" = "".
Proof. reflexivity. Qed.

Example ensure_heading_kept :
  ensure_markdown_headings ("### X" ++ nl ++ "text") = "### X" ++ nl ++ "text".
Proof. reflexivity. Qed.

Example ensure_plain :
  ensure_markdown_headings "plain text"
  = "### Answer" ++ nl ++ nl ++ "plain text".
Proof. reflexivity. Qed.

(** A text that was given the heading is left alone. *)
Lemma ensure_after_prepend (text : string) :
  ensure_markdown_headings ("### Answer" ++ nl ++ nl ++ text)
  = "### Answer" ++ nl ++ nl ++ text.
Proof. reflexivity. Qed.

(** The two ways out of the function. *)
Lemma ensure_cases (text : string) :
  ensure_markdown_headings text = text
  \/ ensure_markdown_headings text = "### Answer" ++ nl ++ nl ++ text.
Proof.
  unfold ensure_markdown_headings.
  destruct (negb (truthy text)); [left; reflexivity|].
  cbv zeta; destruct (startswith (lstrip text) "#");
    [left | right]; reflexivity.
Qed.

(** C6. The Response Normalizer is idempotent: for every string [x],
    [ensure_markdown_headings (ensure_markdown_headings x)] equals
    [ensure_markdown_headings x]. *)
Theorem ensure_markdown_headings_idempotent (x : string) :
  ensure_markdown_headings (ensure_markdown_headings x)
  = ensure_markdown_headings x.
Proof.
  destruct (ensure_cases x) as [Kept | Prepended].
  - (* x is empty or has a heading: returned as it is, twice *)
    rewrite Kept; exact Kept.
  - (* the heading was prepended: the second pass sees it *)
    rewrite Prepended; apply ensure_after_prepend.
Qed.

End Normalizer.

(* ================================================================= *)
(** ** Input validation *)

Section Validation.

Import validators.

Lemma validate_none (field_name : string) :
  validate_text_input ArgNone field_name
  = (false, "Please provide " ++ field_name ++ ".").
Proof. reflexivity. Qed.

Lemma validate_blank (text field_name : string) :
  strip text = "" ->
  validate_text_input (ArgStr text) field_name
  = (false, "Please enter some " ++ field_name ++ ".").
Proof. intro E; unfold validate_text_input; rewrite E; reflexivity. Qed.

Lemma validate_long (text field_name : string) :
  strip text <> "" ->
  (8000 < Z.of_nat (String.length text))%Z ->
  validate_text_input (ArgStr text) field_name
  = (false, "The " ++ field_name ++ " is too long. Please shorten it a bit.").
Proof.
  intros NE Long; unfold validate_text_input.
  apply truthy_true_iff in NE; rewrite NE; simpl negb; cbv iota.
  apply Z.ltb_lt in Long; rewrite Long; reflexivity.
Qed.

Lemma validate_accepted (text field_name : string) :
  strip text <> "" ->
  (Z.of_nat (String.length text) <= 8000)%Z ->
  validate_text_input (ArgStr text) field_name = (true, "").
Proof.
  intros NE Short; unfold validate_text_input.
  apply truthy_true_iff in NE; rewrite NE; simpl negb; cbv iota.
  apply Z.ltb_ge in Short; rewrite Short; reflexivity.
Qed.

Lemma too_long_in_message (field_name : string) :
  contains "too long"
    ("The " ++ field_name ++ " is too long. Please shorten it a bit.") = true.
Proof.
  apply contains_append_r, contains_append_r.
  change (contains "too long"
            (" is " ++ "too long" ++ ". Please shorten it a bit.") = true).
  apply contains_middle.
Qed.

Example validate_spaces (field_name : string) :
  validate_text_input (ArgStr "   ") field_name
  = (false, "Please enter some " ++ field_name ++ ".").
Proof. reflexivity. Qed.

Example validate_ok (field_name : string) :
  validate_text_input (ArgStr "ok") field_name = (true, "").
Proof. reflexivity. Qed.

(** Against C9 as stated: a string of 8001 spaces has length 8001, and
    is refused as blank, with a message that does not say "too long". *)
Lemma validate_text_input_blank_8001 :
  Z.of_nat (String.length (replicate 8001 " "%char)) = 8001%Z
  /\ validate_text_input (ArgStr (replicate 8001 " "%char)) "input"
     = (false, "Please enter some input.")
  /\ contains "too long" "Please enter some input." = false.
Proof.
  split; [rewrite length_replicate; reflexivity|].
  split; [|reflexivity].
  apply validate_blank; unfold strip; rewrite lstrip_replicate_space;
    reflexivity.
Qed.

(** C9, amended. [validate_text_input] returns [(false, m)] with the
    field name in [m] on [None]; [(false, ...)] on a string that is blank
    after trimming, such as three spaces, whatever its length;
    [(false, m)] with "too long" in [m] on every string of length 8001 or
    more that is not blank after trimming; [(true, "")] on "ok"; and it
    accepts exactly the strings that are not blank after trimming and
    have length at most 8000. *)
Theorem validate_text_input_spec (text field_name : string) :
  (fst (validate_text_input ArgNone field_name) = false
   /\ contains field_name (snd (validate_text_input ArgNone field_name))
      = true)
  /\ fst (validate_text_input (ArgStr "   ") field_name) = false
  /\ (strip text = "" ->
      validate_text_input (ArgStr text) field_name
      = (false, "Please enter some " ++ field_name ++ "."))
  /\ ((8001 <= Z.of_nat (String.length text))%Z -> strip text <> "" ->
      fst (validate_text_input (ArgStr text) field_name) = false
      /\ contains "too long"
           (snd (validate_text_input (ArgStr text) field_name)) = true)
  /\ validate_text_input (ArgStr "ok") field_name = (true, "")
  /\ (validate_text_input (ArgStr text) field_name = (true, "")
      <-> strip text <> ""
          /\ (Z.of_nat (String.length text) <= 8000)%Z).
Proof.
  repeat match goal with |- _ /\ _ => split end.
  - reflexivity.
  - change (contains field_name ("Please provide " ++ field_name ++ ".")
            = true).
    apply contains_middle.
  - reflexivity.
  - apply validate_blank.
  - intros Long NE; rewrite validate_long by (trivial; lia).
    split; [reflexivity | apply too_long_in_message].
  - reflexivity.
  - split.
    + intro Accepted.
      destruct (string_dec (strip text) "") as [Blank | NE].
      { rewrite (validate_blank _ _ Blank) in Accepted; discriminate. }
      split; [exact NE|].
      destruct (Z.le_gt_cases (Z.of_nat (String.length text)) 8000)
        as [Short | Long]; [exact Short|].
      rewrite validate_long in Accepted by (trivial; lia); discriminate.
    + intros [NE Short]; apply validate_accepted; assumption.
Qed.

(** The hypotheses of the long-input case hold of 8001 letters x. *)
Lemma validate_text_input_spec_witness :
  (8001 <= Z.of_nat (String.length (replicate 8001 "x"%char)))%Z
  /\ strip (replicate 8001 "x"%char) <> ""
  /\ fst (validate_text_input (ArgStr (replicate 8001 "x"%char)) "input")
     = false
  /\ contains "too long"
       (snd (validate_text_input (ArgStr (replicate 8001 "x"%char)) "input"))
     = true.
Proof.
  assert (L : (8001 <= Z.of_nat (String.length (replicate 8001 "x"%char)))%Z)
    by (rewrite length_replicate; vm_compute; discriminate).
  assert (NE : strip (replicate 8001 "x"%char) <> "")
    by (apply truthy_true_iff; vm_compute; reflexivity).
  split; [exact L|]. split; [exact NE|].
  exact (proj1 (proj2 (proj2 (proj2
           (validate_text_input_spec (replicate 8001 "x"%char) "input"))))
           L NE).
Defined.

End Validation.

(* ================================================================= *)
(** ** The Prompt Builder *)

Section PromptBuilder.

Import templates.

Lemma dict_get_absent {V : Type} (d : list (string * V)) (key : string)
  (default : V) :
  ~ In key (map fst d) -> dict_get d key default = default.
Proof.
  induction d as [|[k v] d IH]; simpl; intro Absent; [reflexivity|].
  destruct (String.eqb_spec k key) as [E | _].
  - exfalso; apply Absent; left; exact E.
  - apply IH; intro H; apply Absent; right; exact H.
Qed.

Lemma dict_get_explain :
  dict_get task_instructions "Explain" "" = explain_instruction.
Proof. reflexivity. Qed.

Lemma append_nonempty (a b : string) : a <> "" -> a ++ b <> "".
Proof. destruct a; simpl; [intro H; exfalso; apply H; reflexivity | discriminate]. Qed.

(** The prompt is never empty: it opens with the line feed of the
    triple-quoted block. *)
Lemma build_text_tutor_prompt_nonempty (user_input : string)
  (student_level task_type : option string)
  (chat_history : option (list Exchange)) :
  build_text_tutor_prompt user_input student_level task_type chat_history
  <> "".
Proof.
  unfold build_text_tutor_prompt; cbv zeta.
  apply append_nonempty, append_nonempty; unfold nl; discriminate.
Qed.

Example scenario_A_prompt :
  let prompt :=
    build_text_tutor_prompt "Explain photosynthesis" (Some "Beginner")
      (Some "Explain") (Some []) in
  contains "Beginner" prompt = true
  /\ contains "Explain the topic step by step" prompt = true
  /\ contains "Explain photosynthesis" prompt = true.
Proof. vm_compute; repeat split. Qed.

(** Against C7 as stated: the task type " Quiz", with a leading space,
    is none of the five known task types, yet the prompt built for it
    carries the "Quiz" block and not the "Explain" block. *)
Lemma build_text_tutor_prompt_padded_quiz :
  existsb (String.eqb " Quiz") known_task_types = false
  /\ contains explain_instruction
       (build_text_tutor_prompt "x" (Some "Beginner") (Some " Quiz") None)
     = false
  /\ contains "Create a short quiz of 5 questions."
       (build_text_tutor_prompt "x" (Some "Beginner") (Some " Quiz") None)
     = true.
Proof. vm_compute; repeat split. Qed.

(** C7, amended. For every task type that, once trimmed of surrounding
    white space, is not one of the known task types (Explain, Examples,
    Practice Questions, Quiz, Study Plan), [build_text_tutor_prompt]
    returns a prompt (it is a total function) that contains the
    "Explain" instruction block and is not empty. *)
Theorem build_text_tutor_prompt_unknown_task (user_input : string)
  (student_level task_type : option string)
  (chat_history : option (list Exchange)) :
  ~ In (strip (or_default task_type "Explain")) known_task_types ->
  contains explain_instruction
    (build_text_tutor_prompt user_input student_level task_type chat_history)
  = true
  /\ build_text_tutor_prompt user_input student_level task_type chat_history
     <> "".
Proof.
  intro Unknown; split; [|apply build_text_tutor_prompt_nonempty].
  unfold build_text_tutor_prompt; cbv zeta.
  rewrite (dict_get_absent task_instructions _ _ Unknown), dict_get_explain.
  do 5 apply contains_append_r.
  apply contains_here.
Qed.

(** The task type "Homework" is not a known one. *)
Lemma build_text_tutor_prompt_unknown_task_witness :
  ~ In (strip (or_default (Some "Homework") "Explain")) known_task_types
  /\ contains explain_instruction
       (build_text_tutor_prompt "What is a cell?" (Some "Beginner")
          (Some "Homework") None) = true
  /\ build_text_tutor_prompt "What is a cell?" (Some "Beginner")
       (Some "Homework") None <> "".
Proof.
  assert (U : ~ In (strip (or_default (Some "Homework") "Explain"))
                known_task_types)
    by (simpl; intuition discriminate).
  split; [exact U|].
  exact (build_text_tutor_prompt_unknown_task "What is a cell?"
           (Some "Beginner") (Some "Homework") None U).
Defined.

End PromptBuilder.

(* ================================================================= *)
(** ** The Model Gateway: the local key check *)

Section KeyCheck.

Import openrouter_client.

Variable post : Request -> PostOutcome.

(** The three accepted prefixes collapse to the shortest one. *)
Lemma valid_prefixes_collapse (key : string) :
  existsb (fun prefix => startswith key prefix) valid_prefixes
  = startswith key "sk-".
Proof.
  unfold valid_prefixes, startswith; simpl existsb.
  destruct (String.prefix "sk-" key) eqn:Short.
  - rewrite !orb_true_r; reflexivity.
  - rewrite orb_false_r.
    destruct (String.prefix "sk-or-v1-" key) eqn:P1.
    + apply (prefix_append_l "sk-" "or-v1-") in P1; congruence.
    + destruct (String.prefix "sk-or-v1" key) eqn:P2; [|reflexivity].
      apply (prefix_append_l "sk-" "or-v1") in P2; congruence.
Qed.

Lemma strip_truthy_inv (s : string) :
  truthy (strip s) = true -> truthy s = true.
Proof. destruct s; [discriminate | reflexivity]. Qed.

(** Reading a JSON value raises nothing but exceptions of other classes. *)
Lemma json_get_raises (v : json) (key : string) (default : json)
  (e : PyError) :
  json_get v key default = Raise e -> exists text, e = OtherException text.
Proof.
  destruct v; simpl; intro H; inversion H; eexists; reflexivity.
Qed.

Lemma json_index0_raises (v : json) (e : PyError) :
  json_index0 v = Raise e -> exists text, e = OtherException text.
Proof.
  destruct v as [| | | | [|] | [|] |]; simpl; intro H; inversion H;
    eexists; reflexivity.
Qed.

Ltac other_exception H :=
  first [apply json_get_raises in H | apply json_index0_raises in H];
  destruct H as [? ->]; simpl bind.

(** No exit of [handle_response] is the key-format error. *)
Lemma handle_response_not_format_error (response : Response) :
  handle_response response <> Raise (LLM key_format_error).
Proof.
  unfold handle_response.
  destruct (negb (Nat.eqb (status_code response) 200)).
  - destruct (Nat.eqb (status_code response) 401); [discriminate|].
    destruct (Nat.eqb (status_code response) 429); [discriminate|].
    destruct (extract_error_msg response); discriminate.
  - destruct (json_body response) as [data | exc]; [|discriminate].
    destruct (json_get data "choices" (JArr [])) as [choices | e] eqn:Choices;
      [simpl bind | other_exception Choices; discriminate].
    destruct (negb (json_truthy choices)); [discriminate|].
    destruct (json_index0 choices) as [first | e] eqn:First;
      [simpl bind | other_exception First; discriminate].
    destruct (json_get first "message" (JObj [])) as [message | e] eqn:Msg;
      [simpl bind | other_exception Msg; discriminate].
    destruct (json_get message "content" JNull) as [text | e] eqn:Content;
      [simpl bind | other_exception Content; discriminate].
    destruct (negb (json_truthy text)); discriminate.
Qed.

(** C10. Once the key is not blank (the empty-key branch aside), the
    local format check of [openrouter_chat] accepts every key whose
    trimmed value starts with "sk-": testing the three accepted prefixes
    is testing "sk-" alone, and the format error is raised exactly when
    the trimmed key does not start with "sk-". *)
Theorem api_key_format_check (messages : list ChatMessage)
  (api_key model temperature : string) (max_tokens : nat) :
  strip api_key <> "" ->
  existsb (fun prefix => startswith (strip api_key) prefix) valid_prefixes
  = startswith (strip api_key) "sk-"
  /\ (openrouter_chat post messages api_key model temperature max_tokens
      = Raise (LLM key_format_error)
      <-> startswith (strip api_key) "sk-" = false).
Proof.
  intro NotBlank; split; [apply valid_prefixes_collapse|].
  apply truthy_true_iff in NotBlank.
  unfold openrouter_chat.
  rewrite (strip_truthy_inv _ NotBlank), NotBlank; simpl orb; cbv iota zeta.
  rewrite valid_prefixes_collapse.
  destruct (startswith (strip api_key) "sk-"); simpl negb; cbv iota.
  - split; [|discriminate].
    intro Raised; exfalso; revert Raised.
    destruct messages as [|m ms]; [discriminate|].
    match goal with |- context [post ?r] => destruct (post r) end;
      try discriminate.
    apply handle_response_not_format_error.
  - split; reflexivity.
Qed.

End KeyCheck.


(** The key "sk-live-123" is not blank; the theorem applies to it. *)
Lemma api_key_format_check_witness :
  strip "sk-live-123" <> ""
  /\ existsb (fun prefix => startswith (strip "sk-live-123") prefix)
       openrouter_client.valid_prefixes
     = startswith (strip "sk-live-123") "sk-"
  /\ (openrouter_client.openrouter_chat
        (fun _ => openrouter_client.Timeout) [] "sk-live-123"
        openrouter_client.DEFAULT_MODEL "0.5" 700
      = openrouter_client.Raise
          (openrouter_client.LLM openrouter_client.key_format_error)
      <-> startswith (strip "sk-live-123") "sk-" = false).
Proof.
  assert (NB : strip "sk-live-123" <> "")
    by (intro H; vm_compute in H; discriminate H).
  split; [exact NB|].
  exact (api_key_format_check (fun _ => openrouter_client.Timeout) []
           "sk-live-123" openrouter_client.DEFAULT_MODEL "0.5" 700 NB).
Defined.

(* ================================================================= *)
(** ** The Model Gateway: the fallback plan *)

Section FallbackPlan.

Import openrouter_client.

Lemma str_in_true_iff (x : string) (xs : list string) :
  str_in x xs = true <-> In x xs.
Proof.
  unfold str_in; rewrite existsb_exists; split.
  - intros [y [Hy E]]; apply String.eqb_eq in E; subst; exact Hy.
  - intro H; exists x; split; [exact H | apply String.eqb_refl].
Qed.

Lemma str_in_false_iff (x : string) (xs : list string) :
  str_in x xs = false <-> ~ In x xs.
Proof.
  rewrite <- str_in_true_iff; destruct (str_in x xs); split; intro H;
    try reflexivity; try discriminate; try (exfalso; apply H; reflexivity).
Qed.

Lemma FALLBACK_MODELS_NoDup : NoDup FALLBACK_MODELS.
Proof.
  unfold FALLBACK_MODELS.
  repeat constructor; simpl; intuition discriminate.
Qed.

(** The other fall-back models, in the order of the priority list. *)
Local Abbreviation others model :=
  (filter (fun fallback => negb (String.eqb fallback model)) FALLBACK_MODELS).

Lemma others_all (model : string) :
  ~ In model FALLBACK_MODELS -> others model = FALLBACK_MODELS.
Proof.
  intro Out.
  apply forallb_filter_id, forallb_forall; intros x Hx.
  destruct (String.eqb_spec x model) as [-> | _];
    [exfalso; exact (Out Hx) | reflexivity].
Qed.

(** The plan in closed form. *)
Lemma models_to_try_closed (model : string) :
  models_to_try model = model :: others model.
Proof.
  unfold models_to_try.
  destruct (str_in model FALLBACK_MODELS) eqn:Known; simpl negb; cbv iota.
  - apply str_in_true_iff in Known.
    repeat (destruct Known as [<- | Known]; [vm_compute; reflexivity|]).
    destruct Known.
  - apply str_in_false_iff in Known; rewrite (others_all _ Known).
    reflexivity.
Qed.

Lemma models_to_try_NoDup (model : string) : NoDup (models_to_try model).
Proof.
  rewrite models_to_try_closed; constructor.
  - rewrite filter_In; intros [_ Differs].
    rewrite String.eqb_refl in Differs; discriminate.
  - apply NoDup_filter, FALLBACK_MODELS_NoDup.
Qed.

(** C3. For every requested model [M], the fallback plan starts with
    [M], holds no model twice, holds exactly [M] and the models of the
    fixed priority list, and after [M] lists the priority list without
    [M], in the order of the priority list. *)
Theorem models_to_try_spec (M : string) :
  hd_error (models_to_try M) = Some M
  /\ NoDup (models_to_try M)
  /\ (forall x, In x (models_to_try M) <-> x = M \/ In x FALLBACK_MODELS)
  /\ tl (models_to_try M)
     = filter (fun fallback => negb (String.eqb fallback M)) FALLBACK_MODELS.
Proof.
  split; [rewrite models_to_try_closed; reflexivity|].
  split; [apply models_to_try_NoDup|].
  rewrite models_to_try_closed; repeat split.
  - intros [<- | Hx]; [left; reflexivity|].
    right; apply filter_In in Hx; tauto.
  - intros [-> | Hx]; [left; reflexivity|].
    destruct (String.eqb_spec x M) as [-> | Differs]; [left; reflexivity|].
    right; apply filter_In; split; [exact Hx|].
    apply negb_true_iff, String.eqb_neq; exact Differs.
Qed.

Example plan_for_default :
  models_to_try DEFAULT_MODEL
  = [ "xiaomi/mimo-v2-flash:free"; "mistralai/devstral-2-2512:free";
      "tngtech/deepseek-r1t2-chimera:free" ].
Proof. reflexivity. Qed.

Example plan_for_second :
  models_to_try "mistralai/devstral-2-2512:free"
  = [ "mistralai/devstral-2-2512:free"; "xiaomi/mimo-v2-flash:free";
      "tngtech/deepseek-r1t2-chimera:free" ].
Proof. reflexivity. Qed.

Example plan_for_other :
  models_to_try "openai/gpt-4o"
  = [ "openai/gpt-4o"; "xiaomi/mimo-v2-flash:free";
      "mistralai/devstral-2-2512:free";
      "tngtech/deepseek-r1t2-chimera:free" ].
Proof. reflexivity. Qed.

End FallbackPlan.

(* ================================================================= *)
(** ** The Model Gateway: the fallback loop *)

Section FallbackLoop.

Import openrouter_client.

Variable post : Request -> PostOutcome.

Lemma last_In {A : Type} (x : A) (xs : list A) (d : A) :
  In (List.last (x :: xs) d) (x :: xs).
Proof.
  revert x; induction xs as [|y ys IH]; intro x; [left; reflexivity|].
  right; exact (IH y).
Qed.

(** In a plan the first model is not the final one. *)
Lemma first_is_not_final (model first second : string) (rest : list string) :
  models_to_try model = first :: second :: rest ->
  String.eqb first (List.last (first :: second :: rest) "") = false.
Proof.
  intro Plan.
  pose proof (models_to_try_NoDup model) as Distinct.
  rewrite Plan in Distinct; inversion Distinct as [|? ? Fresh _]; subst.
  apply String.eqb_neq; intro Same; apply Fresh.
  rewrite Same at 1.
  exact (last_In second rest "").
Qed.

(** One round of the loop: a success on the first candidate. *)
Lemma try_models_success (chat : string -> Result json) (final : string)
  (candidate : string) (rest : list string) (last_error : option LLMError)
  (t : string) :
  chat candidate = Return (JStr t) ->
  try_models chat final (candidate :: rest) last_error
  = (Returned (formatters.ensure_markdown_headings t), [candidate]).
Proof. intro Ok; simpl; rewrite Ok; reflexivity. Qed.

(** One round of the loop: a model error that is not on the final model
    moves on to the next candidate. *)
Lemma try_models_continue (chat : string -> Result json) (final : string)
  (candidate : string) (rest : list string) (last_error : option LLMError)
  (e : LLMError) :
  chat candidate = Raise (LLM e) ->
  is_model_error e = true ->
  String.eqb candidate final = false ->
  try_models chat final (candidate :: rest) last_error
  = (fst (try_models chat final rest (Some e)),
     candidate :: snd (try_models chat final rest (Some e))).
Proof.
  intros Fails Model NotFinal; simpl.
  rewrite Fails, Model, NotFinal; simpl.
  destruct (try_models chat final rest (Some e)); reflexivity.
Qed.

(** One round of the loop: an [LLMError] that is not a model error
    breaks out of the loop. *)
Lemma try_models_break (chat : string -> Result json) (final : string)
  (candidate : string) (rest : list string) (last_error : option LLMError)
  (e : LLMError) :
  chat candidate = Raise (LLM e) ->
  is_model_error e = false ->
  try_models chat final (candidate :: rest) last_error
  = (Finished (Some e), [candidate]).
Proof. intros Fails Fatal; simpl; rewrite Fails, Fatal; reflexivity. Qed.

Lemma prompt_check_passes (prompt : string) :
  strip prompt <> "" ->
  negb (truthy prompt) || negb (truthy (strip prompt)) = false.
Proof.
  intro NB; apply truthy_true_iff in NB.
  rewrite (strip_truthy_inv _ NB), NB; reflexivity.
Qed.

(** C4. If the first candidate fails with a model-unavailable error and
    the second candidate succeeds with the text [t], then
    [generate_llm_response] returns [ensure_markdown_headings t], and the
    endpoint was called for these two candidates and no other. *)
Theorem fallback_to_second_candidate (prompt api_key model : string)
  (chat_history : option (list state.Message)) (system_message : string)
  (first second : string) (rest : list string) (e : LLMError) (t : string) :
  strip prompt <> "" ->
  models_to_try model = first :: second :: rest ->
  openrouter_chat post (build_messages prompt chat_history system_message)
    api_key first "0.5" 700 = Raise (LLM e) ->
  is_model_error e = true ->
  openrouter_chat post (build_messages prompt chat_history system_message)
    api_key second "0.5" 700 = Return (JStr t) ->
  generate_llm_response post prompt api_key model chat_history system_message
  = (Return (formatters.ensure_markdown_headings t), [first; second]).
Proof.
  intros NB Plan Fails Model Succeeds.
  unfold generate_llm_response.
  rewrite (prompt_check_passes _ NB); cbv zeta; rewrite Plan.
  rewrite (try_models_continue _ _ _ _ _ e Fails Model
             (first_is_not_final _ _ _ _ Plan)).
  rewrite (try_models_success _ _ _ _ _ t Succeeds).
  reflexivity.
Qed.

(** The other way a candidate can fail: an exception that is not an
    [LLMError] leaves [generate_llm_response] as it is. *)
Lemma first_candidate_other_exception (prompt api_key model : string)
  (chat_history : option (list state.Message)) (system_message : string)
  (text : string) :
  strip prompt <> "" ->
  openrouter_chat post (build_messages prompt chat_history system_message)
    api_key model "0.5" 700 = Raise (OtherException text) ->
  generate_llm_response post prompt api_key model chat_history system_message
  = (Raise (OtherException text), [model]).
Proof.
  intros NB Fails.
  unfold generate_llm_response.
  rewrite (prompt_check_passes _ NB); cbv zeta.
  rewrite models_to_try_closed; simpl try_models; rewrite Fails.
  reflexivity.
Qed.

(** C1, amended. If the first candidate (the requested model) fails with
    an [LLMError] that is not a model error, the endpoint is called for
    no further candidate, and the caller receives a new [LLMError], not
    flagged as a model error, whose message is "Failed to generate
    response after trying N model(s). Last error: " followed by the
    message of that failure, N being the length of the plan. *)
Theorem fatal_error_stops_fallback (prompt api_key model : string)
  (chat_history : option (list state.Message)) (system_message : string)
  (e : LLMError) :
  strip prompt <> "" ->
  openrouter_chat post (build_messages prompt chat_history system_message)
    api_key model "0.5" 700 = Raise (LLM e) ->
  is_model_error e = false ->
  generate_llm_response post prompt api_key model chat_history system_message
  = (Raise (LLM {| message :=
                     "Failed to generate response after trying "
                     ++ of_nat (List.length (models_to_try model))
                     ++ " model(s). Last error: " ++ message e;
                   is_model_error := false |}),
     [model]).
Proof.
  intros NB Fails Fatal.
  unfold generate_llm_response.
  rewrite (prompt_check_passes _ NB); cbv zeta.
  rewrite models_to_try_closed.
  rewrite (try_models_break _ _ _ _ _ e Fails Fatal).
  reflexivity.
Qed.

End FallbackLoop.

(** The default model answers 404 "Model not found", the next candidate
    answers: the second answer comes back, under the heading. *)
Lemma fallback_to_second_candidate_witness :
  strip "Explain photosynthesis" <> ""
  /\ openrouter_client.generate_llm_response stubs.post_default_unavailable
       "Explain photosynthesis" stubs.test_key
       openrouter_client.DEFAULT_MODEL None
       openrouter_client.default_system_message
     = (openrouter_client.Return
          (formatters.ensure_markdown_headings "Plants make food"),
        [ "xiaomi/mimo-v2-flash:free"; "mistralai/devstral-2-2512:free" ]).
Proof.
  assert (NB : strip "Explain photosynthesis" <> "")
    by (intro H; vm_compute in H; discriminate H).
  split; [exact NB|].
  exact (fallback_to_second_candidate stubs.post_default_unavailable
           "Explain photosynthesis" stubs.test_key
           openrouter_client.DEFAULT_MODEL None
           openrouter_client.default_system_message
           "xiaomi/mimo-v2-flash:free" "mistralai/devstral-2-2512:free"
           [ "tngtech/deepseek-r1t2-chimera:free" ]
           {| openrouter_client.message :=
                "OpenRouter API error (status 404): Model not found";
              openrouter_client.is_model_error := true |}
           "Plants make food"
           NB eq_refl eq_refl eq_refl eq_refl).
Defined.

(** Against C1 as stated: the endpoint answers 401.  The first candidate
    fails with the authentication error, no other candidate is tried, and
    the caller receives another error: its message is not the message of
    the authentication error. *)
Lemma auth_error_is_wrapped :
  openrouter_client.openrouter_chat stubs.post_unauthorized
    (openrouter_client.build_messages "hello" None
       openrouter_client.default_system_message)
    stubs.test_key openrouter_client.DEFAULT_MODEL "0.5" 700
  = openrouter_client.Raise
      (openrouter_client.LLM openrouter_client.auth_failed_error)
  /\ openrouter_client.generate_llm_response stubs.post_unauthorized
       "hello" stubs.test_key openrouter_client.DEFAULT_MODEL None
       openrouter_client.default_system_message
     = (openrouter_client.Raise
          (openrouter_client.LLM
             (openrouter_client.LLMError_
                ("Failed to generate response after trying 3 model(s). "
                 ++ "Last error: "
                 ++ openrouter_client.message
                      openrouter_client.auth_failed_error))),
        [ openrouter_client.DEFAULT_MODEL ])
  /\ String.eqb
       ("Failed to generate response after trying 3 model(s). "
        ++ "Last error: "
        ++ openrouter_client.message openrouter_client.auth_failed_error)
       (openrouter_client.message openrouter_client.auth_failed_error)
     = false.
Proof. vm_compute; repeat split. Qed.

(** The hypotheses of the amended C1 hold when the endpoint answers 401. *)
Lemma fatal_error_stops_fallback_witness :
  strip "hello" <> ""
  /\ openrouter_client.generate_llm_response stubs.post_unauthorized
       "hello" stubs.test_key openrouter_client.DEFAULT_MODEL None
       openrouter_client.default_system_message
     = (openrouter_client.Raise
          (openrouter_client.LLM
             {| openrouter_client.message :=
                  "Failed to generate response after trying "
                  ++ of_nat (List.length
                               (openrouter_client.models_to_try
                                  openrouter_client.DEFAULT_MODEL))
                  ++ " model(s). Last error: "
                  ++ openrouter_client.message
                       openrouter_client.auth_failed_error;
                openrouter_client.is_model_error := false |}),
        [ openrouter_client.DEFAULT_MODEL ]).
Proof.
  assert (NB : strip "hello" <> "")
    by (intro H; vm_compute in H; discriminate H).
  split; [exact NB|].
  exact (fatal_error_stops_fallback stubs.post_unauthorized "hello"
           stubs.test_key openrouter_client.DEFAULT_MODEL None
           openrouter_client.default_system_message
           openrouter_client.auth_failed_error NB eq_refl eq_refl).
Defined.

(* ================================================================= *)
(** ** The Model Gateway: upstream error bodies *)

Section ErrorBodies.

Import openrouter_client.

Variable post : Request -> PostOutcome.

(** The local checks pass for a key that starts with "sk-" and a
    non-empty message list: the call is what the response makes it. *)
Lemma openrouter_chat_responded (messages : list ChatMessage)
  (api_key model temperature : string) (max_tokens : nat)
  (response : Response) :
  strip api_key <> "" ->
  startswith (strip api_key) "sk-" = true ->
  messages <> [] ->
  post {| req_url := OPENROUTER_URL;
          req_authorization := "Bearer " ++ api_key;
          req_model := model;
          req_messages := messages;
          req_temperature := temperature;
          req_max_tokens := max_tokens |} = Responded response ->
  openrouter_chat post messages api_key model temperature max_tokens
  = handle_response response.
Proof.
  intros NB Prefix NonEmpty Posted.
  apply truthy_true_iff in NB.
  unfold openrouter_chat.
  rewrite (strip_truthy_inv _ NB), NB; simpl orb; cbv iota zeta.
  rewrite valid_prefixes_collapse, Prefix; simpl negb; cbv iota.
  destruct messages as [|m ms]; [exfalso; apply NonEmpty; reflexivity|].
  rewrite Posted; reflexivity.
Qed.

(** The status decides the message when the body speaks of keys. *)
Lemma handle_response_sanitized (response : Response) (body : string) :
  status_code response <> 200 ->
  extract_error_msg response = JStr body ->
  contains "key" (lower body) || contains "api" (lower body)
  || contains "auth" (lower body) = true ->
  exists e,
    handle_response response = Raise (LLM e)
    /\ message e
       = if Nat.eqb (status_code response) 401
         then message auth_failed_error
         else if Nat.eqb (status_code response) 429
         then message rate_limit_error
         else "OpenRouter API error (status "
              ++ of_nat (status_code response) ++ "): " ++ generic_auth_msg.
Proof.
  intros Status Body Sensitive.
  unfold handle_response.
  apply Nat.eqb_neq in Status; rewrite Status; simpl negb; cbv iota.
  destruct (Nat.eqb (status_code response) 401);
    [eexists; split; reflexivity|].
  destruct (Nat.eqb (status_code response) 429);
    [eexists; split; reflexivity|].
  rewrite Body; cbv zeta; rewrite Sensitive.
  eexists; split; reflexivity.
Qed.

(** C5, amended. For every non-success HTTP response whose extracted
    error body contains "key", "api" or "auth" (case-insensitively), the
    error raised by [openrouter_chat] carries, in place of that body, a
    fixed message that the status code alone decides: the fixed 401 or
    429 message, or else "OpenRouter API error (status N): " followed by
    the generic authentication-error message.  The raw body therefore
    occurs in the message only if it occurs in that fixed text. *)
Theorem upstream_body_replaced (messages : list ChatMessage)
  (api_key model temperature : string) (max_tokens : nat)
  (response : Response) (body : string) :
  strip api_key <> "" ->
  startswith (strip api_key) "sk-" = true ->
  messages <> [] ->
  post {| req_url := OPENROUTER_URL;
          req_authorization := "Bearer " ++ api_key;
          req_model := model;
          req_messages := messages;
          req_temperature := temperature;
          req_max_tokens := max_tokens |} = Responded response ->
  status_code response <> 200 ->
  extract_error_msg response = JStr body ->
  contains "key" (lower body) || contains "api" (lower body)
  || contains "auth" (lower body) = true ->
  exists e,
    openrouter_chat post messages api_key model temperature max_tokens
    = Raise (LLM e)
    /\ message e
       = (if Nat.eqb (status_code response) 401
          then message auth_failed_error
          else if Nat.eqb (status_code response) 429
          then message rate_limit_error
          else "OpenRouter API error (status "
               ++ of_nat (status_code response) ++ "): " ++ generic_auth_msg)
    /\ (contains body
          (if Nat.eqb (status_code response) 401
           then message auth_failed_error
           else if Nat.eqb (status_code response) 429
           then message rate_limit_error
           else "OpenRouter API error (status "
                ++ of_nat (status_code response) ++ "): " ++ generic_auth_msg)
        = false ->
        contains body (message e) = false).
Proof.
  intros NB Prefix NonEmpty Posted Status Body Sensitive.
  rewrite (openrouter_chat_responded _ _ _ _ _ _ NB Prefix NonEmpty Posted).
  destruct (handle_response_sanitized _ _ Status Body Sensitive)
    as [e [Raised Fixed]].
  exists e; split; [exact Raised|]; split; [exact Fixed|].
  rewrite Fixed; trivial.
Qed.

End ErrorBodies.

(** Against C5 as stated: the endpoint fails with status 500 and the
    body "API key".  The body contains "key", the generic message is
    substituted, and the raised message still contains the raw body
    "API key". *)
Lemma upstream_body_api_key_occurs :
  openrouter_client.extract_error_msg
    (stubs.error_response 500 "API key")
  = openrouter_client.JStr "API key"
  /\ contains "key" (lower "API key") = true
  /\ openrouter_client.openrouter_chat stubs.post_api_key_body
       [ {| openrouter_client.role := "user";
            openrouter_client.content := "hello" |} ]
       stubs.test_key openrouter_client.DEFAULT_MODEL "0.5" 700
     = openrouter_client.Raise
         (openrouter_client.LLM
            {| openrouter_client.message :=
                 "OpenRouter API error (status 500): "
                 ++ openrouter_client.generic_auth_msg;
               openrouter_client.is_model_error := false |})
  /\ contains "API key"
       ("OpenRouter API error (status 500): "
        ++ openrouter_client.generic_auth_msg) = true.
Proof. vm_compute; repeat split. Qed.

(** The endpoint fails with status 500 and the body "Invalid API key
    sk-or-v1-secret": the key does not reach the caller. *)
Lemma upstream_body_replaced_witness :
  exists e,
    openrouter_client.openrouter_chat
      (fun _ =>
         openrouter_client.Responded
           (stubs.error_response 500 "Invalid API key sk-or-v1-secret"))
      [ {| openrouter_client.role := "user";
           openrouter_client.content := "hello" |} ]
      stubs.test_key openrouter_client.DEFAULT_MODEL "0.5" 700
    = openrouter_client.Raise (openrouter_client.LLM e)
    /\ openrouter_client.message e
       = "OpenRouter API error (status 500): "
         ++ openrouter_client.generic_auth_msg
    /\ contains "Invalid API key sk-or-v1-secret"
         (openrouter_client.message e) = false.
Proof.
  destruct (upstream_body_replaced
              (fun _ =>
                 openrouter_client.Responded
                   (stubs.error_response 500
                      "Invalid API key sk-or-v1-secret"))
              [ {| openrouter_client.role := "user";
                   openrouter_client.content := "hello" |} ]
              stubs.test_key openrouter_client.DEFAULT_MODEL "0.5" 700
              (stubs.error_response 500 "Invalid API key sk-or-v1-secret")
              "Invalid API key sk-or-v1-secret")
    as [e (Raised & Fixed & Hidden)].
  - intro H; vm_compute in H; discriminate H.
  - reflexivity.
  - discriminate.
  - reflexivity.
  - simpl; discriminate.
  - reflexivity.
  - reflexivity.
  - exists e; split; [exact Raised|]; split; [exact Fixed|].
    apply Hidden; reflexivity.
Defined.

(* ================================================================= *)
(** ** The Orchestrator: the text chat flow *)

Section TextChat.

Import controller.

Variable post : openrouter_client.Request -> openrouter_client.PostOutcome.
Variable extract_query : string -> string.
Variable fetch_wikipedia_images : string -> nat -> list string.

Lemma current_messages_init (w : World) :
  current_messages (on_session state.init_chat_state w) = current_messages w.
Proof.
  unfold current_messages, on_session; simpl.
  destruct (state.messages (session w)); reflexivity.
Qed.

Lemma current_messages_emit (e : Event) (w : World) :
  current_messages (emit e w) = current_messages w.
Proof. reflexivity. Qed.

Lemma current_messages_add_message (role content : string)
  (images : option (list string)) (w : World) :
  current_messages (on_session (state.add_message role content images) w)
  = (current_messages w
     ++ [ {| state.role := role;
             state.content := content;
             state.images := match images with
                             | Some (u :: us) => Some (u :: us)
                             | _ => None
                             end |} ])%list.
Proof.
  unfold current_messages, on_session; simpl.
  destruct (state.messages (session w)); reflexivity.
Qed.

Lemma current_messages_add_chat_message (user_input response : string)
  (w : World) :
  current_messages (on_session (state.add_chat_message user_input response) w)
  = current_messages w.
Proof.
  unfold current_messages, on_session; simpl.
  destruct (state.messages (session w)); reflexivity.
Qed.

Lemma call_model_messages (prompt api_key model : string)
  (chat_history : option (list state.Message)) (w w' : World)
  (result : openrouter_client.Result string) :
  call_model post prompt api_key model chat_history w = (result, w') ->
  current_messages w' = current_messages w.
Proof.
  unfold call_model.
  destruct (llm_client.generate_llm_response post prompt api_key model
              chat_history) as [r tried].
  intro H; inversion H; subst; apply current_messages_emit.
Qed.

Create Rewrite HintDb messages.
#[local] Hint Rewrite current_messages_init current_messages_emit
  current_messages_add_message current_messages_add_chat_message
  : messages.

(** The notice of the flow when an image was asked for and none found. *)
Local Abbreviation notice :=
  {| state.role := "assistant";
     state.content :=
       "I couldn't find images for your request. Let me provide a text explanation instead.";
     state.images := None |}.

(** C2, amended. Every invocation of the text chat flow that completes
    appends to the message list one user message, first, and then: one
    assistant message when no image was asked for and when an image was
    asked for and found; two assistant messages, the fixed notice and the
    answer of the model, when an image was asked for and none was
    found. *)
Theorem text_chat_turn_appends (api_key model : string)
  (ui_data : TextChatInput) (w w' : World) :
  _handle_text_chat_tab post extract_query fetch_wikipedia_images
    api_key model ui_data w = (Completed, w') ->
  exists u,
    user_input ui_data = Some u
    /\ if image_fetcher.detect_image_request u
          && match fst (image_fetcher.fetch_images fetch_wikipedia_images
                          (extract_query u) 3) with
             | [] => true
             | _ => false
             end
       then
         exists response,
           current_messages w'
           = (current_messages w
              ++ [ {| state.role := "user"; state.content := u;
                      state.images := None |};
                   notice;
                   {| state.role := "assistant"; state.content := response;
                      state.images := None |} ])%list
       else
         exists answer,
           state.role answer = "assistant"
           /\ current_messages w'
              = (current_messages w
                 ++ [ {| state.role := "user"; state.content := u;
                         state.images := None |};
                      answer ])%list.
Proof.
  intro Run; unfold _handle_text_chat_tab in Run; cbv zeta in Run.
  destruct (clear_clicked ui_data); [discriminate Run|].
  destruct (user_input ui_data) as [[|c text]|]; try discriminate Run.
  exists (String c text); split; [reflexivity|].
  destruct (validators.validate_text_input _ _) as [[|] error_msg];
    simpl negb in Run; cbv iota in Run; [|discriminate Run].
  destruct (image_fetcher.detect_image_request (String c text)).
  - destruct (image_fetcher.fetch_images fetch_wikipedia_images
                (extract_query (String c text)) 3) as [[|url urls] source];
      simpl fst; simpl andb; cbv iota.
    + (* asked for, none found *)
      destruct (call_model _ _ _ _ _ _) as [[response | exc] w2] eqn:Called;
        [|discriminate Run].
      apply call_model_messages in Called.
      inversion Run; subst w'.
      exists response.
      autorewrite with messages; rewrite Called.
      autorewrite with messages.
      rewrite <- !app_assoc; reflexivity.
    + (* asked for and found *)
      destruct (call_model _ _ _ _ _ _) as [result w2] eqn:Called.
      apply call_model_messages in Called.
      inversion Run; subst w'.
      eexists; split;
        [|autorewrite with messages; rewrite Called;
          autorewrite with messages; rewrite <- !app_assoc; reflexivity].
      reflexivity.
  - (* no image asked for *)
    simpl andb; cbv iota.
    destruct (call_model _ _ _ _ _ _) as [[response | exc] w2] eqn:Called;
      [|discriminate Run].
    apply call_model_messages in Called.
    inversion Run; subst w'.
    eexists; split;
      [|autorewrite with messages; rewrite Called;
        autorewrite with messages; rewrite <- !app_assoc; reflexivity].
    reflexivity.
Qed.

End TextChat.

Example scenario_B_detected :
  image_fetcher.detect_image_request "show me an image of Isaac Newton"
  = true.
Proof. reflexivity. Qed.

Example image_found_turn :
  map (fun m => (state.role m, state.content m, state.images m))
    (controller.current_messages
       (snd (controller._handle_text_chat_tab stubs.post_unauthorized
               stubs.extract_newton stubs.one_image stubs.test_key
               openrouter_client.DEFAULT_MODEL stubs.ask_newton
               stubs.fresh_world)))
  = [ ("user", "show me an image of Isaac Newton", None);
      ("assistant",
       "Here are images related to Isaac Newton." ++ nl ++ nl
       ++ "*Images from Wikipedia*",
       Some ["https://upload.wikimedia.org/newton.jpg"]) ].
Proof. vm_compute; reflexivity. Qed.

Example scenario_A_stored :
  map state.content
    (controller.current_messages
       (snd (controller._handle_text_chat_tab stubs.post_answers
               stubs.extract_newton stubs.no_images stubs.test_key
               openrouter_client.DEFAULT_MODEL stubs.ask_photosynthesis
               stubs.fresh_world)))
  = [ "Explain photosynthesis";
      "### Answer" ++ nl ++ nl ++ "Plants make food" ].
Proof. vm_compute; reflexivity. Qed.

(** Against C2 as stated: an image is asked for, the lookup finds none,
    the model answers.  The invocation completes and has appended three
    messages: one of the user and two of the assistant. *)
Lemma text_chat_image_not_found_appends_three :
  fst (controller._handle_text_chat_tab stubs.post_answers
         stubs.extract_newton stubs.no_images stubs.test_key
         openrouter_client.DEFAULT_MODEL stubs.ask_newton stubs.fresh_world)
  = controller.Completed
  /\ controller.current_messages stubs.fresh_world = []
  /\ map state.role
       (controller.current_messages
          (snd (controller._handle_text_chat_tab stubs.post_answers
                  stubs.extract_newton stubs.no_images stubs.test_key
                  openrouter_client.DEFAULT_MODEL stubs.ask_newton
                  stubs.fresh_world)))
     = [ "user"; "assistant"; "assistant" ].
Proof. vm_compute; repeat split. Qed.

(** The same run satisfies the amended statement. *)
Lemma text_chat_turn_appends_witness :
  controller._handle_text_chat_tab stubs.post_answers
    stubs.extract_newton stubs.no_images stubs.test_key
    openrouter_client.DEFAULT_MODEL stubs.ask_newton stubs.fresh_world
  = (controller.Completed,
     snd (controller._handle_text_chat_tab stubs.post_answers
            stubs.extract_newton stubs.no_images stubs.test_key
            openrouter_client.DEFAULT_MODEL stubs.ask_newton
            stubs.fresh_world))
  /\ exists u,
       controller.user_input stubs.ask_newton = Some u
       /\ if image_fetcher.detect_image_request u
             && match fst (image_fetcher.fetch_images stubs.no_images
                             (stubs.extract_newton u) 3) with
                | [] => true
                | _ => false
                end
          then
            exists response,
              controller.current_messages
                (snd (controller._handle_text_chat_tab stubs.post_answers
                        stubs.extract_newton stubs.no_images stubs.test_key
                        openrouter_client.DEFAULT_MODEL stubs.ask_newton
                        stubs.fresh_world))
              = (controller.current_messages stubs.fresh_world
                 ++ [ {| state.role := "user"; state.content := u;
                         state.images := None |};
                      {| state.role := "assistant";
                         state.content :=
                           "I couldn't find images for your request. Let me provide a text explanation instead.";
                         state.images := None |};
                      {| state.role := "assistant";
                         state.content := response;
                         state.images := None |} ])%list
          else
            exists answer,
              state.role answer = "assistant"
              /\ controller.current_messages
                   (snd (controller._handle_text_chat_tab stubs.post_answers
                           stubs.extract_newton stubs.no_images
                           stubs.test_key openrouter_client.DEFAULT_MODEL
                           stubs.ask_newton stubs.fresh_world))
                 = (controller.current_messages stubs.fresh_world
                    ++ [ {| state.role := "user"; state.content := u;
                            state.images := None |};
                         answer ])%list.
Proof.
  assert (Run :
    controller._handle_text_chat_tab stubs.post_answers
      stubs.extract_newton stubs.no_images stubs.test_key
      openrouter_client.DEFAULT_MODEL stubs.ask_newton stubs.fresh_world
    = (controller.Completed,
       snd (controller._handle_text_chat_tab stubs.post_answers
              stubs.extract_newton stubs.no_images stubs.test_key
              openrouter_client.DEFAULT_MODEL stubs.ask_newton
              stubs.fresh_world)))
    by (vm_compute; reflexivity).
  split; [exact Run|].
  exact (text_chat_turn_appends stubs.post_answers stubs.extract_newton
           stubs.no_images stubs.test_key openrouter_client.DEFAULT_MODEL
           stubs.ask_newton stubs.fresh_world _ Run).
Defined.

(* ================================================================= *)
(** ** The Orchestrator: the image doubt solver *)

Section ImageSolver.

Import controller.

Variable post : openrouter_client.Request -> openrouter_client.PostOutcome.
Variable engine : list byte -> ocr.EngineOutcome.

(** C8. In the image doubt solver, once the button is clicked and the
    file is accepted, an OCR result that is empty or all white space
    makes the flow show the "no readable text" warning and nothing else:
    the log gains the OCR run and the warning, and no call of the model. *)
Theorem blank_ocr_makes_no_model_call (api_key model : string)
  (ui_data : ImageSolverInput) (w : World) (file : validators.UploadedFile)
  (ocr_text : string) :
  solve_clicked ui_data = true ->
  uploaded_file ui_data = Some file ->
  fst (validators.validate_image_file (Some file)) = true ->
  ocr.extract_text_from_image engine (validators.data file) = inl ocr_text ->
  strip ocr_text = "" ->
  _handle_image_solver_tab post engine api_key model ui_data w
  = {| session := session w;
       log := (log w ++ [ OcrRun (validators.data file);
                          ShowWarning no_text_warning ])%list |}
  /\ forall prompt tried,
       ~ In (ModelCall prompt tried)
           [ OcrRun (validators.data file); ShowWarning no_text_warning ].
Proof.
  intros Clicked Uploaded Valid Read Blank; split.
  - unfold _handle_image_solver_tab; cbv zeta.
    rewrite Clicked, Uploaded; simpl negb; cbv iota.
    destruct (validators.validate_image_file (Some file))
      as [is_valid error_msg].
    simpl in Valid; subst is_valid; simpl negb; cbv iota.
    rewrite Read, Blank; simpl truthy; simpl negb.
    rewrite orb_true_r.
    unfold emit; simpl; rewrite <- app_assoc; reflexivity.
  - intros prompt tried [H | [H | []]]; discriminate H.
Qed.

End ImageSolver.

(** The engine reads a space and a line feed from the photo: a warning,
    no call of the model, though the endpoint would have answered. *)
Lemma blank_ocr_makes_no_model_call_witness :
  strip (" " ++ nl) = ""
  /\ controller._handle_image_solver_tab stubs.post_answers
       stubs.engine_blank stubs.test_key openrouter_client.DEFAULT_MODEL
       stubs.solve_photo stubs.fresh_world
     = {| controller.session := controller.session stubs.fresh_world;
          controller.log :=
            (controller.log stubs.fresh_world
             ++ [ controller.OcrRun (validators.data stubs.photo);
                  controller.ShowWarning controller.no_text_warning ])%list |}.
Proof.
  split; [reflexivity|].
  exact (proj1 (blank_ocr_makes_no_model_call stubs.post_answers
                  stubs.engine_blank stubs.test_key
                  openrouter_client.DEFAULT_MODEL stubs.solve_photo
                  stubs.fresh_world stubs.photo (" " ++ nl)
                  eq_refl eq_refl eq_refl eq_refl eq_refl)).
Defined.

(* ================================================================= *)
(** * Further properties of the code *)

(** ** More facts about Python strings *)

Section MoreStringFacts.

Lemma lower_char_idempotent (c : ascii) :
  lower_char (lower_char c) = lower_char c.
Proof.
  destruct c as [[|] [|] [|] [|] [|] [|] [|] [|]]; reflexivity.
Qed.

Lemma lower_idempotent (s : string) : lower (lower s) = lower s.
Proof.
  induction s as [|c s IH]; simpl; [reflexivity|].
  rewrite lower_char_idempotent, IH; reflexivity.
Qed.

Lemma lower_append (a b : string) : lower (a ++ b) = lower a ++ lower b.
Proof. induction a as [|c a IH]; simpl; [reflexivity | rewrite IH; reflexivity]. Qed.

Lemma append_assoc (a b c : string) : (a ++ b) ++ c = a ++ b ++ c.
Proof. induction a as [|x a IH]; simpl; [reflexivity | rewrite IH; reflexivity]. Qed.

Lemma append_empty_r (a : string) : a ++ "" = a.
Proof. induction a as [|x a IH]; simpl; [reflexivity | rewrite IH; reflexivity]. Qed.

Lemma length_append (a b : string) :
  String.length (a ++ b) = String.length a + String.length b.
Proof. induction a as [|x a IH]; simpl; [reflexivity | rewrite IH; reflexivity]. Qed.

(** A string that is not empty and opens with no white space. *)
Local Abbreviation opens_solid s :=
  (match s with
   | EmptyString => false
   | String c _ => negb (isspace c)
   end).






End MoreStringFacts.

(* ================================================================= *)
(** ** The Response Normalizer, further *)

Section NormalizerExtras.

Import formatters.

(** A non-empty text leaves the normalizer with a heading. *)
Lemma ensure_gives_heading (text : string) :
  text <> "" ->
  startswith (lstrip (ensure_markdown_headings text)) "#" = true
  /\ exists before, ensure_markdown_headings text = before ++ text.
Proof.
  intro NE; apply truthy_true_iff in NE.
  unfold ensure_markdown_headings; rewrite NE; simpl negb; cbv iota zeta.
  destruct (startswith (lstrip text) "#") eqn:Heading.
  - split; [exact Heading | exists ""; reflexivity].
  - split; [reflexivity|].
    exists ("### Answer" ++ nl ++ nl); rewrite !append_assoc; reflexivity.
Qed.

(** X1. Whatever non-empty text it is given, [ensure_markdown_headings]
    returns a text whose first character after leading white space is
    the heading marker, and that ends with the given text. *)
Theorem ensure_markdown_headings_heading (text : string) :
  text <> "" ->
  startswith (lstrip (ensure_markdown_headings text)) "#" = true
  /\ exists before, ensure_markdown_headings text = before ++ text.
Proof. exact (ensure_gives_heading text). Qed.

Lemma ensure_markdown_headings_heading_witness :
  "plain text" <> ""
  /\ startswith (lstrip (ensure_markdown_headings "plain text")) "#" = true
  /\ exists before, ensure_markdown_headings "plain text"
                    = before ++ "plain text".
Proof.
  assert (NE : "plain text" <> "") by discriminate.
  split; [exact NE | exact (ensure_markdown_headings_heading _ NE)].
Defined.

End NormalizerExtras.

(* ================================================================= *)
(** ** The Model Gateway, further: [openrouter_chat] *)

Section ChatExtras.

Import openrouter_client.

Ltac raised_other H :=
  first [apply json_get_raises in H | apply json_index0_raises in H];
  destruct H as [? ->]; simpl bind.

(** The exits of [handle_response] on a 200 response carry no flag. *)
Lemma handle_response_200 (response : Response) :
  Nat.eqb (status_code response) 200 = true ->
  (exists v, handle_response response = Return v /\ json_truthy v = true)
  \/ (exists e, handle_response response = Raise (LLM e)
                /\ is_model_error e = false)
  \/ (exists text, handle_response response = Raise (OtherException text)).
Proof.
  intro Status; unfold handle_response; rewrite Status; simpl negb; cbv iota.
  destruct (json_body response) as [data | exc];
    [|right; left; eexists; split; reflexivity].
  destruct (json_get data "choices" (JArr [])) as [choices | e] eqn:Choices;
    [simpl bind | raised_other Choices; right; right; eexists; reflexivity].
  destruct (negb (json_truthy choices));
    [right; left; eexists; split; reflexivity|].
  destruct (json_index0 choices) as [first | e] eqn:First;
    [simpl bind | raised_other First; right; right; eexists; reflexivity].
  destruct (json_get first "message" (JObj [])) as [message | e] eqn:Msg;
    [simpl bind | raised_other Msg; right; right; eexists; reflexivity].
  destruct (json_get message "content" JNull) as [text | e] eqn:Content;
    [simpl bind | raised_other Content; right; right; eexists; reflexivity].
  destruct (json_truthy text) eqn:Truthy; simpl negb; cbv iota.
  - left; exists text; split; [reflexivity | exact Truthy].
  - right; left; eexists; split; reflexivity.
Qed.

(** A flagged error of [handle_response] comes from a response that is
    neither 200, 401 nor 429 and whose body reads as a model error. *)
Lemma handle_response_model_error (response : Response) (e : LLMError) :
  handle_response response = Raise (LLM e) ->
  is_model_error e = true ->
  status_code response <> 200 /\ status_code response <> 401
  /\ status_code response <> 429
  /\ exists body,
       extract_error_msg response = JStr body
       /\ contains "model" (lower body) = true
       /\ contains "not found" (lower body) || contains "invalid" (lower body)
          = true.
Proof.
  intros Raised Flag.
  destruct (Nat.eqb (status_code response) 200) eqn:Status.
  - exfalso.
    destruct (handle_response_200 _ Status)
      as [[v [R _]] | [[e' [R F]] | [text R]]];
      rewrite R in Raised; inversion Raised; subst; congruence.
  - unfold handle_response in Raised; rewrite Status in Raised.
    simpl negb in Raised; cbv iota zeta in Raised.
    apply Nat.eqb_neq in Status.
    destruct (Nat.eqb (status_code response) 401) eqn:S401;
      [inversion Raised; subst; discriminate Flag|].
    destruct (Nat.eqb (status_code response) 429) eqn:S429;
      [inversion Raised; subst; discriminate Flag|].
    apply Nat.eqb_neq in S401; apply Nat.eqb_neq in S429.
    repeat (split; [assumption|]).
    destruct (extract_error_msg response) as [| | | | body | |];
      try discriminate Raised.
    exists body; split; [reflexivity|].
    inversion Raised; subst e; simpl in Flag.
    apply andb_true_iff in Flag; exact Flag.
Qed.

Variable post : Request -> PostOutcome.

(** What [openrouter_chat] returns is truthy. *)
Lemma chat_returns_truthy (messages : list ChatMessage)
  (api_key model temperature : string) (max_tokens : nat) (v : json) :
  openrouter_chat post messages api_key model temperature max_tokens
  = Return v ->
  json_truthy v = true.
Proof.
  unfold openrouter_chat.
  destruct (negb (truthy api_key) || negb (truthy (strip api_key)));
    [discriminate|].
  cbv zeta.
  destruct (negb (existsb _ valid_prefixes)); [discriminate|].
  destruct messages as [|m ms]; [discriminate|].
  match goal with |- context [post ?r] => destruct (post r) as [| | exc | response] end;
    try discriminate.
  intro Returned.
  destruct (Nat.eqb (status_code response) 200) eqn:Status.
  - destruct (handle_response_200 _ Status)
      as [[v' [R T]] | [[e' [R F]] | [text R]]];
      rewrite R in Returned; inversion Returned; subst; exact T.
  - unfold handle_response in Returned; rewrite Status in Returned.
    simpl negb in Returned; cbv iota zeta in Returned.
    destruct (Nat.eqb (status_code response) 401); [discriminate|].
    destruct (Nat.eqb (status_code response) 429); [discriminate|].
    destruct (extract_error_msg response); discriminate.
Qed.


(** X3. Only an HTTP response can make [openrouter_chat] raise an error
    flagged as a model error (the only kind that the fallback retries):
    the request was posted and answered with a status other than 200,
    401 and 429, and the extracted body, lower-cased, contains "model"
    and one of "not found" and "invalid".  A bad key, an empty message
    list, a connection failure or a time-out never does. *)
Theorem model_error_needs_response (messages : list ChatMessage)
  (api_key model temperature : string) (max_tokens : nat) (e : LLMError) :
  openrouter_chat post messages api_key model temperature max_tokens
  = Raise (LLM e) ->
  is_model_error e = true ->
  exists response body,
    post {| req_url := OPENROUTER_URL;
            req_authorization := "Bearer " ++ api_key;
            req_model := model;
            req_messages := messages;
            req_temperature := temperature;
            req_max_tokens := max_tokens |} = Responded response
    /\ status_code response <> 200 /\ status_code response <> 401
    /\ status_code response <> 429
    /\ extract_error_msg response = JStr body
    /\ contains "model" (lower body) = true
    /\ contains "not found" (lower body) || contains "invalid" (lower body)
       = true.
Proof.
  unfold openrouter_chat.
  destruct (negb (truthy api_key) || negb (truthy (strip api_key)));
    [intro R; inversion R; subst; discriminate|].
  cbv zeta.
  destruct (negb (existsb _ valid_prefixes));
    [intro R; inversion R; subst; discriminate|].
  destruct messages as [|m ms]; [intro R; inversion R; subst; discriminate|].
  match goal with
  | |- context [post ?r] =>
      destruct (post r) as [| | exc | response] eqn:Posted
  end; try (intro R; inversion R; subst; discriminate).
  intros Raised Flag.
  destruct (handle_response_model_error _ _ Raised Flag)
    as (S200 & S401 & S429 & body & Body & Model & Kind).
  exists response, body.
  split; [reflexivity|].
  repeat (split; [assumption|]); assumption.
Qed.

(** X4. The three local checks of [openrouter_chat] come before any
    request: with a blank key, a key that does not start with "sk-", or
    an empty message list, the call raises the same unflagged [LLMError]
    whatever the endpoint would do. *)
Theorem openrouter_chat_local_failure
  (other : Request -> PostOutcome) (messages : list ChatMessage)
  (api_key model temperature : string) (max_tokens : nat) :
  strip api_key = "" \/ startswith (strip api_key) "sk-" = false
  \/ messages = [] ->
  exists e,
    openrouter_chat post messages api_key model temperature max_tokens
    = Raise (LLM e)
    /\ openrouter_chat other messages api_key model temperature max_tokens
       = Raise (LLM e)
    /\ is_model_error e = false.
Proof.
  intro Local; unfold openrouter_chat.
  destruct (negb (truthy api_key) || negb (truthy (strip api_key))) eqn:Blank;
    [eexists; repeat split; reflexivity|].
  cbv zeta; rewrite valid_prefixes_collapse.
  destruct (startswith (strip api_key) "sk-") eqn:Prefix; simpl negb; cbv iota;
    [|eexists; repeat split; reflexivity].
  destruct messages as [|m ms]; [eexists; repeat split; reflexivity|].
  exfalso; destruct Local as [Empty | [Bad | Nil]];
    [|discriminate Bad | discriminate Nil].
  rewrite Empty in Blank; simpl in Blank.
  rewrite orb_true_r in Blank; discriminate Blank.
Qed.

End ChatExtras.


Lemma model_error_needs_response_witness :
  exists response body,
    stubs.post_default_unavailable
      {| openrouter_client.req_url := openrouter_client.OPENROUTER_URL;
         openrouter_client.req_authorization := "Bearer " ++ stubs.test_key;
         openrouter_client.req_model := openrouter_client.DEFAULT_MODEL;
         openrouter_client.req_messages :=
           [ {| openrouter_client.role := "user";
                openrouter_client.content := "hello" |} ];
         openrouter_client.req_temperature := "0.5";
         openrouter_client.req_max_tokens := 700 |}
    = openrouter_client.Responded response
    /\ openrouter_client.status_code response <> 200
    /\ openrouter_client.status_code response <> 401
    /\ openrouter_client.status_code response <> 429
    /\ openrouter_client.extract_error_msg response
       = openrouter_client.JStr body
    /\ contains "model" (lower body) = true
    /\ contains "not found" (lower body) || contains "invalid" (lower body)
       = true.
Proof.
  exact (model_error_needs_response stubs.post_default_unavailable
           [ {| openrouter_client.role := "user";
                openrouter_client.content := "hello" |} ]
           stubs.test_key openrouter_client.DEFAULT_MODEL "0.5" 700
           {| openrouter_client.message :=
                "OpenRouter API error (status 404): Model not found";
              openrouter_client.is_model_error := true |}
           eq_refl eq_refl).
Defined.

Lemma openrouter_chat_local_failure_witness :
  startswith (strip "pk-123") "sk-" = false
  /\ exists e,
       openrouter_client.openrouter_chat stubs.post_answers
         [ {| openrouter_client.role := "user";
              openrouter_client.content := "hello" |} ]
         "pk-123" openrouter_client.DEFAULT_MODEL "0.5" 700
       = openrouter_client.Raise (openrouter_client.LLM e)
       /\ openrouter_client.openrouter_chat stubs.post_unauthorized
            [ {| openrouter_client.role := "user";
                 openrouter_client.content := "hello" |} ]
            "pk-123" openrouter_client.DEFAULT_MODEL "0.5" 700
          = openrouter_client.Raise (openrouter_client.LLM e)
       /\ openrouter_client.is_model_error e = false.
Proof.
  split; [reflexivity|].
  exact (openrouter_chat_local_failure stubs.post_answers
           stubs.post_unauthorized
           [ {| openrouter_client.role := "user";
                openrouter_client.content := "hello" |} ]
           "pk-123" openrouter_client.DEFAULT_MODEL "0.5" 700
           (or_intror (or_introl eq_refl))).
Defined.

(* ================================================================= *)
(** ** The Model Gateway, further: [generate_llm_response] *)

Section FallbackExtras.

Import openrouter_client.

(** One round of the loop, whatever the candidate does. *)
Lemma try_models_step (chat : string -> Result json) (final : string)
  (m : string) (ms : list string) (last_error : option LLMError) :
  try_models chat final (m :: ms) last_error
  = match chat m with
    | Return raw =>
        (match normalize raw with
         | Return text => Returned text
         | Raise e => Propagated e
         end, [m])
    | Raise (OtherException text) => (Propagated (OtherException text), [m])
    | Raise (LLM exc) =>
        if is_model_error exc
        then (fst (try_models chat final ms (Some exc)),
              m :: snd (try_models chat final ms (Some exc)))
        else (Finished (Some exc), [m])
    end.
Proof.
  simpl; destruct (chat m) as [raw | [exc | text]]; try reflexivity.
  destruct (is_model_error exc); simpl;
    [|reflexivity].
  destruct (negb (String.eqb m final));
    destruct (try_models chat final ms (Some exc)); reflexivity.
Qed.



(** A text that the loop returns is the normalized text of a candidate. *)
Lemma try_models_returned (chat : string -> Result json) (final : string)
  (candidates : list string) (last_error : option LLMError) (t : string) :
  fst (try_models chat final candidates last_error) = Returned t ->
  exists m s,
    In m candidates /\ chat m = Return (JStr s)
    /\ t = formatters.ensure_markdown_headings s.
Proof.
  revert last_error; induction candidates as [|m ms IH]; intro last_error;
    [discriminate|].
  rewrite try_models_step.
  destruct (chat m) as [raw | [exc | text]] eqn:Chat.
  - destruct raw; simpl; try discriminate.
    intro H; inversion H; subst.
    exists m, s; split; [left; reflexivity|].
    split; [exact Chat | reflexivity].
  - destruct (is_model_error exc); simpl; [|discriminate].
    intro H; destruct (IH _ H) as (m' & s & Hin & Hc & Ht).
    exists m', s; split; [right; exact Hin|]; split; assumption.
  - discriminate.
Qed.

(** When every candidate fails with a model error the loop runs to the
    end of the list and keeps the error of the last candidate. *)
Lemma try_models_exhausted (chat : string -> Result json) (final : string)
  (candidates : list string) (last_error : option LLMError) :
  (forall m, In m candidates ->
             exists e, chat m = Raise (LLM e) /\ is_model_error e = true) ->
  snd (try_models chat final candidates last_error) = candidates
  /\ match candidates with
     | [] => fst (try_models chat final candidates last_error)
             = Finished last_error
     | m :: ms =>
         exists e, chat (List.last candidates "") = Raise (LLM e)
                   /\ fst (try_models chat final candidates last_error)
                      = Finished (Some e)
     end.
Proof.
  revert last_error; induction candidates as [|m ms IH];
    intros last_error All; [split; reflexivity|].
  destruct (All m (or_introl eq_refl)) as [e [Chat Flag]].
  assert (Rest : forall m', In m' ms ->
            exists e', chat m' = Raise (LLM e') /\ is_model_error e' = true)
    by (intros m' Hin; apply All; right; exact Hin).
  destruct (IH (Some e) Rest) as [Tried Exit].
  assert (Step : try_models chat final (m :: ms) last_error
                 = (fst (try_models chat final ms (Some e)),
                    m :: snd (try_models chat final ms (Some e)))).
  { simpl; rewrite Chat, Flag; simpl.
    destruct (negb (String.eqb m final));
      destruct (try_models chat final ms (Some e)); reflexivity. }
  rewrite Step; simpl fst; simpl snd; rewrite Tried; split; [reflexivity|].
  destruct ms as [|m2 ms2].
  - exists e; split; [exact Chat | exact Exit].
  - exact Exit.
Qed.

Variable post : Request -> PostOutcome.

(** X5. A blank prompt is refused before anything else: the "Prompt is
    empty" error, and the endpoint is called for no model. *)
Theorem blank_prompt_refused (prompt api_key model : string)
  (chat_history : option (list state.Message)) (system_message : string) :
  strip prompt = "" ->
  generate_llm_response post prompt api_key model chat_history system_message
  = (Raise (LLM (LLMError_ "Prompt is empty. Cannot generate a response.")),
     []).
Proof.
  intro Blank; unfold generate_llm_response.
  rewrite Blank; simpl truthy; simpl negb; rewrite orb_true_r; reflexivity.
Qed.


(** X7. When every model of the plan fails with a model error, the
    endpoint is called for the whole plan, in order, and the caller
    receives the composite error built on the error of the last model. *)
Theorem plan_exhausted (prompt api_key model : string)
  (chat_history : option (list state.Message)) (system_message : string) :
  strip prompt <> "" ->
  (forall m, In m (models_to_try model) ->
     exists e,
       openrouter_chat post
         (build_messages prompt chat_history system_message)
         api_key m "0.5" 700 = Raise (LLM e)
       /\ is_model_error e = true) ->
  exists e,
    openrouter_chat post (build_messages prompt chat_history system_message)
      api_key (List.last (models_to_try model) "") "0.5" 700 = Raise (LLM e)
    /\ generate_llm_response post prompt api_key model chat_history
         system_message
       = (Raise (LLM (LLMError_
                        ("Failed to generate response after trying "
                         ++ of_nat (List.length (models_to_try model))
                         ++ " model(s). Last error: " ++ message e))),
          models_to_try model).
Proof.
  intros NB All.
  destruct (try_models_exhausted _ (List.last (models_to_try model) "")
              _ None All) as [Tried Exit].
  unfold generate_llm_response.
  rewrite (prompt_check_passes _ NB); cbv zeta.
  destruct (try_models _ _ (models_to_try model) None) as [exit tried].
  simpl in Tried, Exit; subst tried.
  rewrite models_to_try_closed in Exit.
  rewrite <- models_to_try_closed in Exit.
  destruct Exit as [e [Last Finish]].
  exists e; split; [exact Last|].
  rewrite Finish; reflexivity.
Qed.

(** X8. No [LLMError] that leaves [generate_llm_response] is flagged as
    a model error: the flag is used up inside the fallback. *)
Theorem surfaced_error_unflagged (prompt api_key model : string)
  (chat_history : option (list state.Message)) (system_message : string)
  (e : LLMError) (tried : list string) :
  generate_llm_response post prompt api_key model chat_history system_message
  = (Raise (LLM e), tried) ->
  is_model_error e = false.
Proof.
  unfold generate_llm_response.
  destruct (negb (truthy prompt) || negb (truthy (strip prompt)));
    [intro H; inversion H; reflexivity|].
  cbv zeta.
  assert (Unflagged : forall candidates last_error e',
            fst (try_models
                   (fun model_to_try =>
                      openrouter_chat post
                        (build_messages prompt chat_history system_message)
                        api_key model_to_try "0.5" 700)
                   (List.last (models_to_try model) "") candidates last_error)
            <> Propagated (LLM e')).
  { induction candidates as [|m ms IH]; intros last_error e';
      [discriminate|].
    rewrite try_models_step.
    destruct (openrouter_chat post _ api_key m "0.5" 700)
      as [raw | [exc | text]].
    - destruct raw; simpl; discriminate.
    - destruct (is_model_error exc); simpl; [apply IH | discriminate].
    - discriminate. }
  specialize (Unflagged (models_to_try model) None).
  destruct (try_models _ _ (models_to_try model) None) as [exit tried'].
  simpl in Unflagged.
  destruct exit as [text | err | [last_error|]]; intro H; inversion H; subst;
    try reflexivity.
  exfalso; exact (Unflagged e eq_refl).
Qed.

(** X9. A text that [generate_llm_response] returns is never empty and
    always opens, after leading white space, with a heading marker. *)
Theorem returned_text_has_heading (prompt api_key model : string)
  (chat_history : option (list state.Message)) (system_message : string)
  (t : string) (tried : list string) :
  generate_llm_response post prompt api_key model chat_history system_message
  = (Return t, tried) ->
  t <> "" /\ startswith (lstrip t) "#" = true.
Proof.
  unfold generate_llm_response.
  destruct (negb (truthy prompt) || negb (truthy (strip prompt)));
    [discriminate|].
  cbv zeta.
  pose proof (try_models_returned
                (fun model_to_try =>
                   openrouter_chat post
                     (build_messages prompt chat_history system_message)
                     api_key model_to_try "0.5" 700)
                (List.last (models_to_try model) "") (models_to_try model)
                None t) as Source.
  destruct (try_models _ _ (models_to_try model) None) as [exit tried'].
  destruct exit as [text | err | [last_error|]]; intro H; inversion H; subst.
  destruct (Source eq_refl) as (m & s & _ & Chat & ->).
  apply chat_returns_truthy in Chat; simpl in Chat.
  apply truthy_true_iff in Chat.
  destruct (ensure_gives_heading s Chat) as [Heading [before Eq]].
  split; [|exact Heading].
  rewrite Eq; intro Empty.
  apply (f_equal String.length) in Empty; rewrite length_append in Empty.
  destruct s; [apply Chat; reflexivity | simpl in Empty; lia].
Qed.

End FallbackExtras.

Lemma blank_prompt_refused_witness :
  strip "   " = ""
  /\ openrouter_client.generate_llm_response stubs.post_answers "   "
       stubs.test_key openrouter_client.DEFAULT_MODEL None
       openrouter_client.default_system_message
     = (openrouter_client.Raise
          (openrouter_client.LLM
             (openrouter_client.LLMError_
                "Prompt is empty. Cannot generate a response.")),
        []).
Proof.
  split; [reflexivity|].
  exact (blank_prompt_refused stubs.post_answers "   " stubs.test_key
           openrouter_client.DEFAULT_MODEL None
           openrouter_client.default_system_message eq_refl).
Defined.

Lemma plan_exhausted_witness :
  exists e,
    openrouter_client.openrouter_chat stubs.post_unavailable
      (openrouter_client.build_messages "hello" None
         openrouter_client.default_system_message)
      stubs.test_key
      (List.last
         (openrouter_client.models_to_try openrouter_client.DEFAULT_MODEL) "")
      "0.5" 700
    = openrouter_client.Raise (openrouter_client.LLM e)
    /\ openrouter_client.generate_llm_response stubs.post_unavailable "hello"
         stubs.test_key openrouter_client.DEFAULT_MODEL None
         openrouter_client.default_system_message
       = (openrouter_client.Raise
            (openrouter_client.LLM
               (openrouter_client.LLMError_
                  ("Failed to generate response after trying "
                   ++ of_nat
                        (List.length
                           (openrouter_client.models_to_try
                              openrouter_client.DEFAULT_MODEL))
                   ++ " model(s). Last error: "
                   ++ openrouter_client.message e))),
          openrouter_client.models_to_try openrouter_client.DEFAULT_MODEL).
Proof.
  refine (plan_exhausted stubs.post_unavailable "hello" stubs.test_key
            openrouter_client.DEFAULT_MODEL None
            openrouter_client.default_system_message _ _).
  - intro H; vm_compute in H; discriminate H.
  - intros m _; eexists; split; reflexivity.
Defined.

Lemma surfaced_error_unflagged_witness :
  openrouter_client.is_model_error
    (openrouter_client.LLMError_
       ("Failed to generate response after trying 3 model(s). "
        ++ "Last error: OpenRouter API error (status 404): Model not found"))
  = false.
Proof.
  exact (surfaced_error_unflagged stubs.post_unavailable "hello"
           stubs.test_key openrouter_client.DEFAULT_MODEL None
           openrouter_client.default_system_message _
           (openrouter_client.models_to_try openrouter_client.DEFAULT_MODEL)
           eq_refl).
Defined.

Lemma returned_text_has_heading_witness :
  "### Answer" ++ nl ++ nl ++ "Plants make food" <> ""
  /\ startswith (lstrip ("### Answer" ++ nl ++ nl ++ "Plants make food")) "#"
     = true.
Proof.
  exact (returned_text_has_heading stubs.post_answers "hello"
           stubs.test_key openrouter_client.DEFAULT_MODEL None
           openrouter_client.default_system_message
           ("### Answer" ++ nl ++ nl ++ "Plants make food")
           [openrouter_client.DEFAULT_MODEL] eq_refl).
Defined.

(* ================================================================= *)
(** ** The Model Gateway, further: the message array *)

Section MessageArray.

Import openrouter_client.

(** X10. The message array that [generate_llm_response] sends ends with
    the prompt as a user message, opens with the system message when
    there is one, and in between holds history messages only: each has
    the role "user" or "assistant" and a non-empty content, and is the
    role and content of a message of the given history (its images are
    not sent). *)
Theorem build_messages_shape (prompt : string)
  (chat_history : option (list state.Message)) (system_message : string) :
  exists history_part,
    build_messages prompt chat_history system_message
    = ((if truthy system_message
        then [ {| role := "system"; content := system_message |} ]
        else [])
       ++ history_part ++ [ {| role := "user"; content := prompt |} ])%list
    /\ Forall
         (fun m =>
            (role m = "user" \/ role m = "assistant") /\ content m <> ""
            /\ exists msg,
                 In msg (match chat_history with Some h => h | None => [] end)
                 /\ state.role msg = role m /\ state.content msg = content m)
         history_part.
Proof.
  unfold build_messages.
  destruct chat_history as [history|]; [|exists []; split; [reflexivity | constructor]].
  eexists; split; [reflexivity|].
  apply Forall_forall; intros m Hm.
  apply in_flat_map in Hm; destruct Hm as [msg [Hin Hm]].
  destruct (str_in (state.role msg) ["user"; "assistant"]
            && truthy (state.content msg)) eqn:Kept; [|destruct Hm].
  destruct Hm as [<- | []]; simpl.
  apply andb_true_iff in Kept; destruct Kept as [Role Content].
  apply str_in_true_iff in Role; apply truthy_true_iff in Content.
  split; [|split; [exact Content | exists msg; auto]].
  destruct Role as [R | [R | []]]; [left | right]; symmetry; exact R.
Qed.

End MessageArray.

(* ================================================================= *)
(** ** The Prompt Builder, further *)

Section PromptExtras.

Import templates.

Lemma last3_of_three {A : Type} (older recent : list A) :
  List.length recent = 3 -> last3 (older ++ recent)%list = recent.
Proof.
  intro Three; unfold last3.
  rewrite length_app, Three.
  replace (List.length older + 3 - 3) with (List.length older) by lia.
  rewrite skipn_app, skipn_all, Nat.sub_diag; reflexivity.
Qed.

Lemma format_chat_history_last_three (older recent : list Exchange) :
  List.length recent = 3 ->
  _format_chat_history (older ++ recent)%list = _format_chat_history recent.
Proof.
  intro Three; unfold _format_chat_history.
  rewrite (last3_of_three older recent Three).
  pose proof (last3_of_three [] recent Three) as Recent; simpl in Recent.
  rewrite Recent.
  destruct recent as [|r rs]; [discriminate Three|].
  destruct (older ++ r :: rs)%list eqn:E; [|reflexivity].
  destruct older; discriminate E.
Qed.

(** X11. Only the last three exchanges of the history reach the prompt:
    whatever came before them, the prompt is the same. *)
Theorem prompt_uses_last_three_exchanges (user_input : string)
  (student_level task_type : option string) (older recent : list Exchange) :
  List.length recent = 3 ->
  build_text_tutor_prompt user_input student_level task_type
    (Some (older ++ recent)%list)
  = build_text_tutor_prompt user_input student_level task_type (Some recent).
Proof.
  intro Three; unfold build_text_tutor_prompt.
  rewrite (format_chat_history_last_three older recent Three); reflexivity.
Qed.

(** X12. The tutor prompt carries the text of the student as it is, and,
    for each of the five task types, the instruction of that type. *)
Theorem prompt_embeds_input_and_task (user_input : string)
  (student_level : option string) (chat_history : option (list Exchange))
  (task instruction : string) :
  In (task, instruction) task_instructions ->
  contains user_input
    (build_text_tutor_prompt user_input student_level (Some task)
       chat_history) = true
  /\ contains instruction
       (build_text_tutor_prompt user_input student_level (Some task)
          chat_history) = true.
Proof.
  intro Known; unfold build_text_tutor_prompt; cbv zeta.
  assert (Lookup :
    dict_get task_instructions (strip (or_default (Some task) "Explain"))
      (dict_get task_instructions "Explain" "") = instruction).
  { unfold task_instructions in Known.
    repeat (destruct Known as [Known | Known];
            [inversion Known; subst; reflexivity|]).
    destruct Known. }
  rewrite Lookup; split.
  - do 10 apply contains_append_r. apply contains_here.
  - do 5 apply contains_append_r. apply contains_here.
Qed.

Lemma prompt_embeds_input_and_task_witness :
  In ("Quiz", "Create a short quiz of 5 questions. "
              ++ "Show the correct answers and short explanations at the end.")
     task_instructions
  /\ contains "What is a cell?"
       (build_text_tutor_prompt "What is a cell?" (Some "Advanced")
          (Some "Quiz") None) = true
  /\ contains ("Create a short quiz of 5 questions. "
               ++ "Show the correct answers and short explanations at the end.")
       (build_text_tutor_prompt "What is a cell?" (Some "Advanced")
          (Some "Quiz") None) = true.
Proof.
  assert (K : In ("Quiz",
                  "Create a short quiz of 5 questions. "
                  ++ "Show the correct answers and short explanations at the end.")
                 task_instructions)
    by (do 3 right; left; reflexivity).
  split; [exact K|].
  exact (prompt_embeds_input_and_task "What is a cell?" (Some "Advanced")
           None _ _ K).
Defined.

(** X13. The prompts built from extracted or pasted text embed that text
    unchanged, on lines of its own between two lines of five dashes:
    the image solver prompt (both modes) and the two "explain my notes"
    prompts; the latter also carry the instruction not to add facts. *)
Theorem prompts_embed_source_verbatim (source : string) (is_question : bool) :
  contains ("-----" ++ nl ++ source ++ nl ++ "-----")
    (build_image_solver_prompt source is_question) = true
  /\ contains ("-----" ++ nl ++ source ++ nl ++ "-----")
       (build_explain_notes_text_prompt source) = true
  /\ contains ("-----" ++ nl ++ source ++ nl ++ "-----")
       (build_explain_notes_image_prompt source) = true
  /\ contains "**Do not add any new facts, formulas, or examples**"
       (build_explain_notes_text_prompt source) = true
  /\ contains "**Do not add new facts, formulas, or examples**"
       (build_explain_notes_image_prompt source) = true.
Proof.
  assert (Embed : forall before after,
            contains ("-----" ++ nl ++ source ++ nl ++ "-----")
              (before ++ "-----" ++ nl ++ source ++ nl ++ "-----" ++ after)
            = true).
  { intros before after.
    replace (before ++ "-----" ++ nl ++ source ++ nl ++ "-----" ++ after)
      with (before ++ ("-----" ++ nl ++ source ++ nl ++ "-----") ++ after)
      by (rewrite !append_assoc; reflexivity).
    apply contains_middle. }
  split; [|split; [|split; [|split]]].
  - unfold build_image_solver_prompt; cbv zeta.
    rewrite <- !append_assoc.
    rewrite !append_assoc.
    do 5 apply contains_append_r.
    rewrite <- (append_empty_r "Respond in Markdown with clear headings and bullet points.").
    exact (Embed "" _).
  - unfold build_explain_notes_text_prompt.
    do 10 apply contains_append_r. exact (Embed "" _).
  - unfold build_explain_notes_image_prompt.
    do 11 apply contains_append_r. exact (Embed "" _).
  - unfold build_explain_notes_text_prompt.
    do 4 apply contains_append_r.
    change (contains "**Do not add any new facts, formulas, or examples**"
              ("what is already written in the notes. "
               ++ "**Do not add any new facts, formulas, or examples**"
               ++ nl ++ "that are not clearly present in the notes, unless the student later asks for more."
               ++ nl ++ nl ++ "Here are the student's notes:" ++ nl
               ++ "-----" ++ nl ++ source ++ nl ++ "-----" ++ nl ++ nl
               ++ "Please:" ++ nl
               ++ "- Explain each part in simple, clear language." ++ nl
               ++ "- Clarify any confusing or technical words using only the information present." ++ nl
               ++ "- Organize the explanation with headings and bullet points." ++ nl
               ++ "- End with a short 'Summary of Your Notes' section." ++ nl)
            = true).
    apply contains_middle.
  - unfold build_explain_notes_image_prompt.
    do 6 apply contains_append_r.
    change (contains "**Do not add new facts, formulas, or examples**"
              ("what is already written there. "
               ++ "**Do not add new facts, formulas, or examples**"
               ++ nl ++ "that are not clearly present in the text below."
               ++ nl ++ nl ++ "Extracted text from the student's image:" ++ nl
               ++ "-----" ++ nl ++ source ++ nl ++ "-----" ++ nl ++ nl
               ++ "Please:" ++ nl
               ++ "- Explain the content in simple words." ++ nl
               ++ "- Clarify tricky or technical parts using only this text." ++ nl
               ++ "- Use headings and bullet points." ++ nl
               ++ "- End with a short 'Summary of What Your Notes Say' section." ++ nl)
            = true).
    apply contains_middle.
Qed.

End PromptExtras.

(* ================================================================= *)
(** ** The session store *)

Section SessionStore.

Import state.

(** X14. [add_message] is an append: the message list read afterwards
    is the list read before followed by the new message, whose "images"
    are kept only when the given list is not empty; the legacy chat
    history is not touched. *)
Theorem add_message_appends (role content : string)
  (images : option (list string)) (st : SessionState) :
  fst (get_messages (add_message role content images st))
  = (fst (get_messages st)
     ++ [ {| state.role := role;
             state.content := content;
             state.images := match images with
                             | Some (u :: us) => Some (u :: us)
                             | _ => None
                             end |} ])%list
  /\ fst (get_chat_history (add_message role content images st))
     = fst (get_chat_history st).
Proof.
  unfold get_messages, get_chat_history, add_message, init_chat_state; simpl.
  destruct (messages st), (chat_history st); split; reflexivity.
Qed.

(** X15. The two lists of the session are independent: appending to the
    message list and appending to the legacy history commute, and
    clearing empties both whatever was stored. *)
Theorem session_lists_independent (role content : string)
  (images : option (list string)) (user_input assistant_response : string)
  (st : SessionState) :
  add_chat_message user_input assistant_response
    (add_message role content images st)
  = add_message role content images
      (add_chat_message user_input assistant_response st)
  /\ fst (get_messages
            (clear_chat_history (add_message role content images st))) = []
  /\ fst (get_chat_history
            (clear_chat_history
               (add_chat_message user_input assistant_response st))) = [].
Proof.
  unfold add_chat_message, add_message, init_chat_state; simpl.
  destruct (messages st), (chat_history st); repeat split; reflexivity.
Qed.

End SessionStore.

(* ================================================================= *)
(** ** Validation of uploads, detection of image requests *)

Section Suffixes.

Lemma substring_whole (p : string) : String.substring 0 (String.length p) p = p.
Proof. induction p as [|c p IH]; simpl; [reflexivity | rewrite IH; reflexivity]. Qed.

Lemma substring_skip (a b : string) (n : nat) :
  String.substring (String.length a) n (a ++ b) = String.substring 0 n b.
Proof. induction a as [|c a IH]; simpl; [reflexivity | exact IH]. Qed.

Lemma substring_split (s : string) (i : nat) :
  i <= String.length s ->
  s = String.substring 0 i s
      ++ String.substring i (String.length s - i) s.
Proof.
  revert i; induction s as [|c s IH]; intros [|i] Le; simpl in *.
  - reflexivity.
  - lia.
  - rewrite substring_whole; reflexivity.
  - rewrite <- IH by lia; reflexivity.
Qed.

(** [s.endswith(p)] says that [s] is some stem followed by [p]. *)
Lemma endswith_iff (s p : string) :
  endswith s p = true <-> exists stem, s = stem ++ p.
Proof.
  unfold endswith; split.
  - intro H; apply andb_true_iff in H; destruct H as [Le Eq].
    apply Nat.leb_le in Le; apply String.eqb_eq in Eq.
    exists (String.substring 0 (String.length s - String.length p) s).
    rewrite (substring_split s (String.length s - String.length p)) at 1
      by lia.
    replace (String.length s - (String.length s - String.length p))
      with (String.length p) by lia.
    rewrite Eq; reflexivity.
  - intros [stem ->].
    rewrite length_append.
    replace (String.length stem + String.length p - String.length p)
      with (String.length stem) by lia.
    rewrite substring_skip, substring_whole, String.eqb_refl.
    rewrite andb_true_r; apply Nat.leb_le; lia.
Qed.

End Suffixes.

Section UploadsAndRequests.

(** X16. An uploaded file is accepted exactly when its name, lower-cased,
    is some stem followed by ".jpg", ".jpeg" or ".png"; the check is
    blind to letter case and never looks at the bytes.  No file at all
    is refused. *)
Theorem validate_image_file_accepts (file : validators.UploadedFile) :
  (fst (validators.validate_image_file (Some file)) = true
   <-> exists stem extension,
         In extension [".jpg"; ".jpeg"; ".png"]
         /\ lower (validators.name file) = stem ++ extension)
  /\ fst (validators.validate_image_file None) = false.
Proof.
  split; [|reflexivity].
  unfold validators.validate_image_file; cbv zeta.
  destruct (endswith (lower (validators.name file)) ".jpg") eqn:Jpg;
    [|destruct (endswith (lower (validators.name file)) ".jpeg") eqn:Jpeg;
      [|destruct (endswith (lower (validators.name file)) ".png") eqn:Png]];
    simpl.
  - split; [intros _ | reflexivity].
    apply endswith_iff in Jpg; destruct Jpg as [stem E].
    exists stem, ".jpg"; split; [left; reflexivity | exact E].
  - split; [intros _ | reflexivity].
    apply endswith_iff in Jpeg; destruct Jpeg as [stem E].
    exists stem, ".jpeg"; split; [right; left; reflexivity | exact E].
  - split; [intros _ | reflexivity].
    apply endswith_iff in Png; destruct Png as [stem E].
    exists stem, ".png"; split; [do 2 right; left; reflexivity | exact E].
  - split; [discriminate|].
    intros (stem & extension & Known & E).
    assert (Ends : endswith (lower (validators.name file)) extension = true)
      by (apply endswith_iff; exists stem; exact E).
    destruct Known as [<- | [<- | [<- | []]]]; congruence.
Qed.

Lemma lower_keyword (keyword : string) :
  In keyword image_fetcher.image_keywords -> lower keyword = keyword.
Proof.
  unfold image_fetcher.image_keywords; intro K.
  repeat (destruct K as [<- | K]; [reflexivity|]).
  destruct K.
Qed.

(** X17. The detection of an image request is blind to letter case, and
    a trigger phrase anywhere in the message is enough. *)
Theorem detect_image_request_spec (before keyword after text : string) :
  In keyword image_fetcher.image_keywords ->
  image_fetcher.detect_image_request (before ++ keyword ++ after) = true
  /\ image_fetcher.detect_image_request (lower text)
     = image_fetcher.detect_image_request text.
Proof.
  intro Known; split.
  - unfold image_fetcher.detect_image_request.
    assert (NE : truthy (before ++ keyword ++ after) = true).
    { apply truthy_true_iff; intro Empty.
      apply (f_equal String.length) in Empty.
      rewrite !length_append in Empty.
      unfold image_fetcher.image_keywords in Known.
      repeat (destruct Known as [<- | Known]; [simpl in Empty; lia|]).
      destruct Known. }
    rewrite NE; simpl negb; cbv iota zeta.
    apply existsb_exists; exists keyword; split; [exact Known|].
    rewrite !lower_append, (lower_keyword _ Known).
    apply contains_middle.
  - unfold image_fetcher.detect_image_request.
    rewrite lower_idempotent.
    destruct text; reflexivity.
Qed.

Lemma detect_image_request_spec_witness :
  In "picture of" image_fetcher.image_keywords
  /\ image_fetcher.detect_image_request
       ("Please send a " ++ "picture of" ++ " the Moon") = true
  /\ image_fetcher.detect_image_request (lower "A PICTURE OF the Moon")
     = image_fetcher.detect_image_request "A PICTURE OF the Moon".
Proof.
  assert (K : In "picture of" image_fetcher.image_keywords)
    by (do 10 right; left; reflexivity).
  split; [exact K|].
  exact (detect_image_request_spec "Please send a " "picture of"
           " the Moon" "A PICTURE OF the Moon" K).
Defined.

End UploadsAndRequests.

(* ================================================================= *)
(** ** The Wikipedia lookup *)

Section LookupExtras.

Import openrouter_client image_fetcher.

Variable http_get : GetRequest -> GetOutcome.
Variable quote : string -> string.
Variable py_title : string -> string.

(** What the lookup promises of a list of URLs: no URL twice, and each a
    non-empty string that starts with "http". *)
Local Abbreviation clean urls :=
  (NoDup urls
   /\ Forall (fun u : string => startswith u "http" = true /\ u <> "") urls).

Lemma safe_url_sound (u : json) (s : string) :
  safe_url u = Some s -> startswith s "http" = true /\ s <> "".
Proof.
  destruct u as [| | | | t | |]; simpl; try discriminate.
  destruct (truthy t) eqn:T; simpl; [|discriminate].
  destruct (startswith t "http") eqn:H; simpl; [|discriminate].
  intro E; inversion E; subst; split; [exact H|].
  apply truthy_true_iff; exact T.
Qed.

Lemma clean_nil : clean (@nil string).
Proof. split; constructor. Qed.

Lemma clean_snoc (urls : list string) (u : string) :
  clean urls -> str_in u urls = false ->
  startswith u "http" = true /\ u <> "" ->
  clean (urls ++ [u])%list.
Proof.
  intros [Distinct Http] Fresh Safe; split.
  - apply NoDup_app; repeat split.
    + exact Distinct.
    + repeat constructor; intros [].
    + intros x Hx [<- | []].
      apply str_in_false_iff in Fresh; exact (Fresh Hx).
  - apply Forall_app; split; [exact Http | repeat constructor; apply Safe].
Qed.

Lemma clean_firstn (limit : nat) (urls : list string) :
  clean urls ->
  clean (firstn limit urls) /\ List.length (firstn limit urls) <= limit.
Proof.
  intros [Distinct Http].
  rewrite <- (firstn_skipn limit urls) in Distinct, Http.
  apply NoDup_app_remove_r in Distinct.
  apply Forall_app in Http; destruct Http as [Http _].
  repeat split; [exact Distinct | exact Http | apply firstn_le_length].
Qed.

(** The URLs of one summary. *)
Lemma summary_image_clean (title : string) :
  clean (fetch_wikipedia_summary_image http_get quote title)
  /\ List.length (fetch_wikipedia_summary_image http_get quote title) <= 2
  /\ fetch_wikipedia_summary_image http_get quote "" = [].
Proof.
  assert (Two : forall first second : option string,
            (forall u, first = Some u -> startswith u "http" = true /\ u <> "") ->
            (forall u, second = Some u -> startswith u "http" = true /\ u <> "") ->
            let urls := match first with
                        | Some u => ([] ++ [u])%list
                        | None => []
                        end in
            let result := match second with
                          | Some u => if negb (str_in u urls)
                                      then (urls ++ [u])%list else urls
                          | None => urls
                          end in
            clean result /\ List.length result <= 2).
  { intros [u|] [v|] Su Sv; cbv zeta; simpl app.
    - destruct (str_in v [u]) eqn:Seen; simpl negb; cbv iota.
      + split; [apply (clean_snoc [] u clean_nil eq_refl), Su; reflexivity
               | simpl; lia].
      + split; [|simpl; lia].
        apply (clean_snoc [u] v); [|exact Seen | apply Sv; reflexivity].
        apply (clean_snoc [] u clean_nil eq_refl), Su; reflexivity.
    - split; [apply (clean_snoc [] u clean_nil eq_refl), Su; reflexivity
             | simpl; lia].
    - simpl; split; [|lia].
      apply (clean_snoc [] v clean_nil eq_refl), Sv; reflexivity.
    - split; [apply clean_nil | simpl; lia]. }
  assert (Empty : clean (@nil string) /\ @List.length string [] <= 2)
    by (split; [apply clean_nil | simpl; lia]).
  enough (Both : clean (fetch_wikipedia_summary_image http_get quote title)
                 /\ List.length
                      (fetch_wikipedia_summary_image http_get quote title) <= 2)
    by (destruct Both as [C L];
        split; [exact C | split; [exact L | reflexivity]]).
  unfold fetch_wikipedia_summary_image.
  destruct (negb (truthy title)); [exact Empty|].
  destruct (http_get _) as [|response]; [exact Empty|].
  destruct (negb (Nat.eqb (status_code response) 200)); [exact Empty|].
  destruct (json_body response) as [data|]; [|exact Empty].
  destruct data as [| | | | | |data]; try exact Empty.
  destruct (match templates.dict_get data "type" JNull with
            | JStr kind => String.eqb kind "disambiguation"
            | _ => false
            end); [exact Empty|].
  cbv zeta.
  set (first := match templates.dict_get data "thumbnail" JNull with
                | JObj thumb => safe_url (templates.dict_get thumb "source" JNull)
                | _ => None
                end).
  set (second := match templates.dict_get data "originalimage" JNull with
                 | JObj orig => safe_url (templates.dict_get orig "source" JNull)
                 | _ => None
                 end).
  assert (Sf : forall u, first = Some u -> startswith u "http" = true /\ u <> "").
  { subst first; intros u.
    destruct (templates.dict_get data "thumbnail" JNull); try discriminate.
    apply safe_url_sound. }
  assert (Ss : forall u, second = Some u -> startswith u "http" = true /\ u <> "").
  { subst second; intros u.
    destruct (templates.dict_get data "originalimage" JNull); try discriminate.
    apply safe_url_sound. }
  pose proof (Two first second Sf Ss) as Result; cbv zeta in Result.
  subst first second.
  destruct (templates.dict_get data "thumbnail" JNull) as [| | | | | |thumb];
    destruct (templates.dict_get data "originalimage" JNull) as [| | | | | |orig];
    try exact Result;
    try (destruct (safe_url (templates.dict_get thumb "source" JNull));
         exact Result).
Qed.

(** X18. [fetch_wikipedia_summary_image] returns at most two URLs, no
    URL twice, each a non-empty string that starts with "http"; for an
    empty title it returns none. *)
Theorem fetch_wikipedia_summary_image_spec (title : string) :
  clean (fetch_wikipedia_summary_image http_get quote title)
  /\ List.length (fetch_wikipedia_summary_image http_get quote title) <= 2
  /\ fetch_wikipedia_summary_image http_get quote "" = [].
Proof. exact (summary_image_clean title). Qed.

Lemma add_new_clean (images urls : list string) :
  clean images ->
  Forall (fun u : string => startswith u "http" = true /\ u <> "") urls ->
  clean (add_new images urls).
Proof.
  unfold add_new; revert images.
  induction urls as [|u urls IH]; intros images Clean Safe; [exact Clean|].
  inversion Safe as [|? ? Su Srest]; subst; simpl.
  apply IH; [|exact Srest].
  destruct (str_in u images) eqn:Seen; simpl negb; cbv iota;
    [exact Clean | apply clean_snoc; assumption].
Qed.

(** A loop of the lookup either returns a clean list within the limit or
    goes on with a clean list. *)
Local Abbreviation loop_ok limit outcome :=
  (match outcome with
   | inl result => clean result /\ List.length result <= limit
   | inr images => clean images
   end).

Lemma scan_variations_ok (limit : nat) (variations images : list string) :
  clean images -> loop_ok limit (scan_variations http_get quote limit
                                   variations images).
Proof.
  revert images; induction variations as [|v vs IH]; intros images Clean;
    [exact Clean|].
  simpl.
  pose proof (add_new_clean images
                (fetch_wikipedia_summary_image http_get quote v) Clean
                (proj2 (proj1 (summary_image_clean v))))
    as Added.
  destruct (Nat.leb limit
              (List.length
                 (add_new images
                    (fetch_wikipedia_summary_image http_get quote v)))).
  - apply clean_firstn; exact Added.
  - apply IH; exact Added.
Qed.

Lemma add_until_ok (limit : nat) (urls images : list string) :
  clean images ->
  Forall (fun u : string => startswith u "http" = true /\ u <> "") urls ->
  loop_ok limit (add_until limit urls images).
Proof.
  revert images; induction urls as [|u urls IH]; intros images Clean Safe;
    [exact Clean|].
  inversion Safe as [|? ? Su Srest]; subst; simpl.
  destruct (str_in u images) eqn:Seen; simpl negb; cbv iota;
    [apply IH; assumption|].
  pose proof (clean_snoc images u Clean Seen Su) as Added.
  destruct (Nat.leb limit (List.length (images ++ [u])%list)).
  - apply clean_firstn; exact Added.
  - apply IH; assumption.
Qed.

Lemma scan_titles_ok (limit : nat) (titles images : list string) :
  clean images ->
  loop_ok limit (scan_titles http_get quote limit titles images).
Proof.
  revert images; induction titles as [|t ts IH]; intros images Clean;
    [exact Clean|].
  simpl.
  pose proof (add_until_ok limit
                (fetch_wikipedia_summary_image http_get quote
                   (replace_char " " "_" t))
                images Clean
                (proj2 (proj1 (summary_image_clean _))))
    as Inner.
  destruct (add_until limit _ images) as [result | images'];
    [exact Inner | apply IH; exact Inner].
Qed.

(** The URLs of the whole lookup. *)
Lemma lookup_clean (query : string) (limit : nat) :
  clean (fetch_wikipedia_images http_get quote py_title query limit)
  /\ List.length (fetch_wikipedia_images http_get quote py_title query limit)
     <= limit
  /\ fetch_wikipedia_images http_get quote py_title "" limit = [].
Proof.
  enough (Both :
    clean (fetch_wikipedia_images http_get quote py_title query limit)
    /\ List.length
         (fetch_wikipedia_images http_get quote py_title query limit)
       <= limit)
    by (destruct Both as [C L];
        split; [exact C | split; [exact L | reflexivity]]).
  unfold fetch_wikipedia_images.
  destruct (negb (truthy query));
    [split; [apply clean_nil | simpl; lia]|].
  cbv zeta.
  pose proof (scan_variations_ok limit
                (unique_variations
                   [ strip query; replace_char " " "_" (strip query);
                     py_title (strip query);
                     replace_char " " "_" (py_title (strip query)) ])
                [] clean_nil) as First.
  destruct (scan_variations http_get quote limit _ []) as [result | images];
    [exact First|].
  pose proof (scan_titles_ok limit
                (wikipedia_search_titles http_get query 6) images First)
    as Second.
  destruct (scan_titles http_get quote limit _ images) as [result | images'];
    [exact Second | apply clean_firstn; exact Second].
Qed.

(** X19. [fetch_wikipedia_images] never returns more URLs than the
    limit, never the same URL twice, and only non-empty strings that
    start with "http", whatever Wikipedia answers; for an empty query it
    returns none. *)
Theorem fetch_wikipedia_images_spec (query : string) (limit : nat) :
  clean (fetch_wikipedia_images http_get quote py_title query limit)
  /\ List.length (fetch_wikipedia_images http_get quote py_title query limit)
     <= limit
  /\ fetch_wikipedia_images http_get quote py_title "" limit = [].
Proof. exact (lookup_clean query limit). Qed.

Lemma collect_titles_nonempty (results : list json) (titles : list string) :
  collect_titles results = Some titles ->
  Forall (fun t : string => t <> "") titles.
Proof.
  revert titles; induction results as [|item rest IH]; intros titles; simpl.
  - intro E; inversion E; constructor.
  - destruct item as [| | | | | |item]; try discriminate.
    destruct (collect_titles rest) as [ts|]; [|discriminate].
    specialize (IH ts eq_refl).
    destruct (templates.dict_get item "title" JNull) as [| | | |t| |];
      intro E; inversion E; subst; try exact IH.
    destruct (truthy t) eqn:T; [|exact IH].
    constructor; [apply truthy_true_iff; exact T | exact IH].
Qed.

(** X20. [wikipedia_search_titles] returns non-empty titles only; it
    returns none for an empty query, when the request raises, and when
    the status is an error status (400 to 599). *)
Theorem wikipedia_search_titles_spec (query : string) (limit : nat) :
  Forall (fun t : string => t <> "")
    (wikipedia_search_titles http_get query limit)
  /\ wikipedia_search_titles http_get "" limit = []
  /\ match http_get
             {| get_url := "https://en.wikipedia.org/w/api.php";
                get_params :=
                  [ ("action", "query"); ("format", "json");
                    ("list", "search"); ("srsearch", query);
                    ("srlimit", of_nat limit) ] |} with
     | GetFailed => wikipedia_search_titles http_get query limit = []
     | GetResponse r =>
         400 <= status_code r < 600 ->
         wikipedia_search_titles http_get query limit = []
     end.
Proof.
  split; [|split; [reflexivity|]]; unfold wikipedia_search_titles.
  - destruct (negb (truthy query)); [constructor|].
    destruct (http_get _) as [|r]; [constructor|].
    destruct (Nat.leb 400 (status_code r) && Nat.ltb (status_code r) 600);
      [constructor|].
    destruct (json_body r) as [data|]; [|constructor].
    destruct (query_part <- json_get data "query" (JObj []) ;;
              json_get query_part "search" (JArr []))
      as [[| | | | |results|]|]; try constructor.
    destruct (collect_titles results) as [titles|] eqn:Collected;
      [|constructor].
    exact (collect_titles_nonempty _ _ Collected).
  - destruct (negb (truthy query));
      [destruct (http_get _); [reflexivity | intros _; reflexivity]|].
    destruct (http_get _) as [|r]; [reflexivity|].
    intros [Low High].
    apply Nat.leb_le in Low; apply Nat.ltb_lt in High.
    rewrite Low, High; reflexivity.
Qed.

(** X21. [fetch_images] answers in one of two ways: no image and the
    source tag "none", or the non-empty list of the lookup and the tag
    "wikipedia"; an empty query is answered "none" without a lookup.
    Over the Wikipedia lookup the list has at most [limit] URLs, all
    different, each starting with "http". *)
Theorem fetch_images_spec (lookup : string -> nat -> list string)
  (query : string) (limit : nat) :
  (fetch_images lookup query limit = ([], "none")
   \/ (fetch_images lookup query limit = (lookup query limit, "wikipedia")
       /\ lookup query limit <> []))
  /\ fetch_images lookup "" limit = ([], "none")
  /\ clean (fst (fetch_images
                   (fetch_wikipedia_images http_get quote py_title)
                   query limit))
  /\ List.length
       (fst (fetch_images (fetch_wikipedia_images http_get quote py_title)
               query limit)) <= limit.
Proof.
  split; [|split; [reflexivity|]].
  - unfold fetch_images.
    destruct (negb (truthy query)); [left; reflexivity|].
    destruct (lookup query limit) as [|u us];
      [left; reflexivity | right; split; [reflexivity | discriminate]].
  - unfold fetch_images.
    destruct (negb (truthy query));
      [split; [apply clean_nil | simpl; lia]|].
    destruct (lookup_clean query limit) as (C & L & _).
    destruct (fetch_wikipedia_images http_get quote py_title query limit);
      [split; [apply clean_nil | simpl; lia] | split; [exact C | exact L]].
Qed.

End LookupExtras.

Lemma prompt_uses_last_three_exchanges_witness :
  templates.build_text_tutor_prompt "And mitosis?" (Some "Beginner")
    (Some "Explain")
    (Some [ {| templates.user := "q0"; templates.assistant := "a0" |};
            {| templates.user := "q1"; templates.assistant := "a1" |};
            {| templates.user := "q2"; templates.assistant := "a2" |};
            {| templates.user := "q3"; templates.assistant := "a3" |} ])
  = templates.build_text_tutor_prompt "And mitosis?" (Some "Beginner")
      (Some "Explain")
      (Some [ {| templates.user := "q1"; templates.assistant := "a1" |};
              {| templates.user := "q2"; templates.assistant := "a2" |};
              {| templates.user := "q3"; templates.assistant := "a3" |} ]).
Proof.
  exact (prompt_uses_last_three_exchanges "And mitosis?" (Some "Beginner")
           (Some "Explain")
           [ {| templates.user := "q0"; templates.assistant := "a0" |} ]
           [ {| templates.user := "q1"; templates.assistant := "a1" |};
             {| templates.user := "q2"; templates.assistant := "a2" |};
             {| templates.user := "q3"; templates.assistant := "a3" |} ]
           eq_refl).
Defined.

(* ================================================================= *)
(** ** The Orchestrator, further *)

Section FlowExtras.

Import controller.

Variable post : openrouter_client.Request -> openrouter_client.PostOutcome.
Variable extract_query : string -> string.
Variable fetch_wikipedia_images : string -> nat -> list string.
Variable engine : list byte -> ocr.EngineOutcome.

Lemma log_emit (e : Event) (w : World) : log (emit e w) = (log w ++ [e])%list.
Proof. reflexivity. Qed.

Lemma log_on_session (f : state.SessionState -> state.SessionState)
  (w : World) : log (on_session f w) = log w.
Proof. reflexivity. Qed.

Lemma session_emit (e : Event) (w : World) : session (emit e w) = session w.
Proof. reflexivity. Qed.

Lemma call_model_world (prompt api_key model : string)
  (chat_history : option (list state.Message)) (w w' : World)
  (result : openrouter_client.Result string) :
  call_model post prompt api_key model chat_history w = (result, w') ->
  session w' = session w
  /\ exists tried, log w' = (log w ++ [ModelCall prompt tried])%list.
Proof.
  unfold call_model.
  destruct (llm_client.generate_llm_response post prompt api_key model
              chat_history) as [r tried].
  intro H; inversion H; subst; split; [reflexivity|].
  exists tried; reflexivity.
Qed.

Lemma show_model_error_world (exc : openrouter_client.PyError) (w : World) :
  session (show_model_error exc w) = session w
  /\ (log (show_model_error exc w) = (log w ++ [ShowError auth_hint])%list
      \/ log (show_model_error exc w)
         = (log w ++ [ShowError generic_failure])%list).
Proof.
  unfold show_model_error; cbv zeta.
  destruct (contains "401" _ || contains "authentication" _
            || contains "invalid" _);
    split; try reflexivity; [left | right]; reflexivity.
Qed.

(** X22. An input that fails validation (blank after trimming, or longer
    than 8000 characters) is refused with the warning of the validator:
    the message list is left as it was and nothing else happens, no
    image lookup and no call of the model. *)
Theorem text_chat_rejects_invalid_input (api_key model : string)
  (ui_data : TextChatInput) (w : World) (text : string) :
  clear_clicked ui_data = false ->
  user_input ui_data = Some text ->
  text <> "" ->
  fst (validators.validate_text_input (validators.ArgStr text)
         "question/topic") = false ->
  exists w',
    _handle_text_chat_tab post extract_query fetch_wikipedia_images
      api_key model ui_data w = (Rejected, w')
    /\ current_messages w' = current_messages w
    /\ log w'
       = (log w
          ++ [ ShowWarning
                 (snd (validators.validate_text_input
                         (validators.ArgStr text) "question/topic")) ])%list.
Proof.
  intros NoClear Input NE Invalid.
  unfold _handle_text_chat_tab; cbv zeta.
  rewrite NoClear, Input.
  destruct text as [|c text]; [exfalso; apply NE; reflexivity|].
  destruct (validators.validate_text_input _ _) as [is_valid error_msg].
  simpl in Invalid; subst is_valid; simpl negb; cbv iota.
  eexists; split; [reflexivity|]; split.
  - rewrite current_messages_emit, current_messages_init; reflexivity.
  - reflexivity.
Qed.

(** An error message on the screen is one of the two fixed ones. *)
Local Abbreviation fixed_errors_only events :=
  (Forall (fun e => match e with
                    | ShowError m => m = auth_hint \/ m = generic_failure
                    | _ => True
                    end) events).

Ltac log_grows Log :=
  simpl log; rewrite ?Log; simpl log;
  rewrite <- ?app_assoc; simpl app;
  eexists; split;
    [reflexivity
    | repeat first [apply Forall_nil | apply Forall_cons]; simpl; auto].

(** X23. The text chat flow never puts the text of an exception on the
    screen: every error it shows is one of two fixed messages, the
    authentication hint or the generic failure message. *)
Theorem text_chat_shows_fixed_errors (api_key model : string)
  (ui_data : TextChatInput) (w : World) :
  exists new,
    log (snd (_handle_text_chat_tab post extract_query
                fetch_wikipedia_images api_key model ui_data w))
    = (log w ++ new)%list
    /\ fixed_errors_only new.
Proof.
  unfold _handle_text_chat_tab; cbv zeta.
  destruct (clear_clicked ui_data);
    [exists []; split; [simpl; rewrite app_nil_r; reflexivity | constructor]|].
  destruct (user_input ui_data) as [[|c text]|];
    try (exists []; split; [simpl; rewrite app_nil_r; reflexivity | constructor]).
  destruct (validators.validate_text_input _ _) as [[|] error_msg];
    simpl negb; cbv iota; [|log_grows I].
  destruct (image_fetcher.detect_image_request (String c text)).
  - destruct (image_fetcher.fetch_images fetch_wikipedia_images
                (extract_query (String c text)) 3) as [[|url urls] source].
    + destruct (call_model _ _ _ _ _ _) as [[response | exc] w2] eqn:Called;
        apply call_model_world in Called; destruct Called as [_ [tried Log]].
      * log_grows Log.
      * destruct (show_model_error_world exc w2) as [_ [Shown | Shown]];
          simpl snd; rewrite Shown, Log; simpl log;
          rewrite <- ?app_assoc; simpl app;
          eexists;
          (split;
             [reflexivity
             | repeat first [apply Forall_nil | apply Forall_cons];
               simpl; auto]).
    + destruct (call_model _ _ _ _ _ _) as [result w2] eqn:Called;
        apply call_model_world in Called; destruct Called as [_ [tried Log]].
      log_grows Log.
  - destruct (call_model _ _ _ _ _ _) as [[response | exc] w2] eqn:Called;
      apply call_model_world in Called; destruct Called as [_ [tried Log]].
    + log_grows Log.
    + destruct (show_model_error_world exc w2) as [_ [Shown | Shown]];
        simpl snd; rewrite Shown, Log; simpl log;
        rewrite <- ?app_assoc; simpl app;
        eexists;
          (split;
             [reflexivity
             | repeat first [apply Forall_nil | apply Forall_cons];
               simpl; auto]).
Qed.


Ltac events :=
  repeat first [apply Forall_nil | apply Forall_cons]; cbv beta iota; auto.

Ltac known_fact :=
  first [ reflexivity | assumption
        | match goal with
          | H : validators.validate_image_file _ = _ |- _ =>
              rewrite H; reflexivity
          end ].

Ltac read_from file ocr_text :=
  exists file, ocr_text; repeat (split; [known_fact|]); known_fact.

(** X25. The image doubt solver and the "explain my notes" flow are
    stateless: whatever happens, the session store is left as it was. *)
Theorem image_and_notes_flows_keep_session (api_key model : string)
  (image_data : ImageSolverInput) (notes_data : ExplainNotesInput)
  (w : World) :
  session (_handle_image_solver_tab post engine api_key model image_data w)
  = session w
  /\ session (_handle_explain_notes_tab post engine api_key model
                notes_data w)
     = session w.
Proof.
  split.
  - unfold _handle_image_solver_tab; cbv zeta.
    destruct (negb (solve_clicked image_data)); [reflexivity|].
    destruct (validators.validate_image_file _) as [[|] error_msg];
      simpl negb; cbv iota; [|reflexivity].
    destruct (uploaded_file image_data) as [file|]; [|reflexivity].
    destruct (ocr.extract_text_from_image engine _) as [ocr_text | exc];
      [|reflexivity].
    destruct (negb (truthy ocr_text) || negb (truthy (strip ocr_text)));
      [reflexivity|].
    destruct (call_model _ _ _ _ _ _) as [[response | exc] w2] eqn:Called;
      apply call_model_world in Called; destruct Called as [Kept _].
    + rewrite session_emit; exact Kept.
    + rewrite (proj1 (show_model_error_world exc w2)); exact Kept.
  - unfold _handle_explain_notes_tab; cbv zeta.
    destruct (negb (explain_clicked notes_data)); [reflexivity|].
    destruct (String.eqb (mode notes_data) "text").
    + destruct (validators.validate_text_input _ _) as [[|] error_msg];
        simpl negb; cbv iota; [|reflexivity].
      destruct (call_model _ _ _ _ _ _) as [[response | exc] w2] eqn:Called;
        apply call_model_world in Called; destruct Called as [Kept _].
      * rewrite session_emit; exact Kept.
      * rewrite (proj1 (show_model_error_world exc w2)); exact Kept.
    + destruct (validators.validate_image_file _) as [[|] error_msg];
        simpl negb; cbv iota; [|reflexivity].
      destruct (notes_uploaded_file notes_data) as [file|]; [|reflexivity].
      destruct (ocr.extract_text_from_image engine _) as [ocr_text | exc];
        [|reflexivity].
      destruct (negb (truthy ocr_text) || negb (truthy (strip ocr_text)));
        [reflexivity|].
      destruct (call_model _ _ _ _ _ _) as [[response | exc] w2] eqn:Called;
        apply call_model_world in Called; destruct Called as [Kept _].
      * rewrite session_emit; exact Kept.
      * rewrite (proj1 (show_model_error_world exc w2)); exact Kept.
Qed.

Lemma blank_check_passes (text : string) :
  negb (truthy text) || negb (truthy (strip text)) = false ->
  strip text <> "".
Proof.
  intro Pass; apply orb_false_iff in Pass; destruct Pass as [_ Pass].
  apply negb_false_iff in Pass; apply truthy_true_iff; exact Pass.
Qed.

(** X26. The image doubt solver calls the model only with the prompt
    built from the text that OCR read from an accepted file, and only
    when that text is not blank: every model call among the events of an
    invocation has this form. *)
Theorem image_solver_calls_model_on_read_text (api_key model : string)
  (ui_data : ImageSolverInput) (w : World) :
  exists new,
    log (_handle_image_solver_tab post engine api_key model ui_data w)
    = (log w ++ new)%list
    /\ Forall
         (fun e =>
            match e with
            | ModelCall prompt _ =>
                exists file ocr_text,
                  uploaded_file ui_data = Some file
                  /\ fst (validators.validate_image_file (Some file)) = true
                  /\ ocr.extract_text_from_image engine
                       (validators.data file) = inl ocr_text
                  /\ strip ocr_text <> ""
                  /\ prompt
                     = templates.build_image_solver_prompt ocr_text
                         (is_question ui_data)
            | _ => True
            end) new.
Proof.
  unfold _handle_image_solver_tab; cbv zeta.
  destruct (negb (solve_clicked ui_data));
    [exists []; split; [rewrite app_nil_r; reflexivity | constructor]|].
  destruct (uploaded_file ui_data) as [file|];
    [|eexists; split; [reflexivity | events]].
  destruct (validators.validate_image_file (Some file))
    as [[|] error_msg] eqn:Valid;
    simpl negb; cbv iota; [|eexists; split; [reflexivity | events]].
  destruct (ocr.extract_text_from_image engine _) as [ocr_text | exc] eqn:Read;
    [|simpl log; rewrite <- ?app_assoc; simpl app;
      eexists; split; [reflexivity | events]].
  destruct (negb (truthy ocr_text) || negb (truthy (strip ocr_text)))
    eqn:Blank;
    [simpl log; rewrite <- ?app_assoc; simpl app;
     eexists; split; [reflexivity | events]|].
  apply blank_check_passes in Blank.
  destruct (call_model _ _ _ _ _ _) as [[response | exc'] w2] eqn:Called;
    apply call_model_world in Called; destruct Called as [_ [tried Log]].
  - simpl log; rewrite Log; simpl log; rewrite <- ?app_assoc; simpl app.
    eexists; split; [reflexivity | events].
    read_from file ocr_text.
  - destruct (show_model_error_world exc' w2) as [_ [Shown | Shown]];
      rewrite Shown, Log; simpl log; rewrite <- ?app_assoc; simpl app;
      (eexists; split; [reflexivity | events]);
      read_from file ocr_text.
Qed.

(** X27. The "explain my notes" flow calls the model only on validated
    input: in text mode with the prompt built from notes that passed
    [validate_text_input], in image mode with the prompt built from
    non-blank text that OCR read from an accepted file. *)
Theorem notes_flow_calls_model_on_valid_input (api_key model : string)
  (ui_data : ExplainNotesInput) (w : World) :
  exists new,
    log (_handle_explain_notes_tab post engine api_key model ui_data w)
    = (log w ++ new)%list
    /\ Forall
         (fun e =>
            match e with
            | ModelCall prompt _ =>
                (mode ui_data = "text"
                 /\ validators.validate_text_input
                      (validators.ArgStr (notes_text ui_data)) "notes"
                    = (true, "")
                 /\ prompt
                    = templates.build_explain_notes_text_prompt
                        (notes_text ui_data))
                \/ (mode ui_data <> "text"
                    /\ exists file ocr_text,
                         notes_uploaded_file ui_data = Some file
                         /\ fst (validators.validate_image_file (Some file))
                            = true
                         /\ ocr.extract_text_from_image engine
                              (validators.data file) = inl ocr_text
                         /\ strip ocr_text <> ""
                         /\ prompt
                            = templates.build_explain_notes_image_prompt
                                ocr_text)
            | _ => True
            end) new.
Proof.
  unfold _handle_explain_notes_tab; cbv zeta.
  destruct (negb (explain_clicked ui_data));
    [exists []; split; [rewrite app_nil_r; reflexivity | constructor]|].
  destruct (String.eqb_spec (mode ui_data) "text") as [Text | Image].
  - destruct (validators.validate_text_input _ _) as [[|] error_msg] eqn:Valid;
      simpl negb; cbv iota; [|eexists; split; [reflexivity | events]].
    assert (Accepted : validators.validate_text_input
                         (validators.ArgStr (notes_text ui_data)) "notes"
                       = (true, "")).
    { rewrite Valid; f_equal.
      unfold validators.validate_text_input in Valid.
      destruct (negb (truthy (strip (notes_text ui_data))));
        [discriminate Valid|].
      destruct (8000 <? Z.of_nat (String.length (notes_text ui_data)))%Z;
        inversion Valid; reflexivity. }
    rewrite Valid in Accepted.
    destruct (call_model _ _ _ _ _ _) as [[response | exc'] w2] eqn:Called;
      apply call_model_world in Called; destruct Called as [_ [tried Log]].
    + simpl log; rewrite Log; simpl log; rewrite <- ?app_assoc; simpl app.
      eexists; split; [reflexivity | events].
    + destruct (show_model_error_world exc' w2) as [_ [Shown | Shown]];
        rewrite Shown, Log; simpl log; rewrite <- ?app_assoc; simpl app;
        (eexists; split; [reflexivity | events]);
        try (left; (split; [exact Text | split; [exact Accepted | reflexivity]])).
  - destruct (notes_uploaded_file ui_data) as [file|];
      [|eexists; split; [reflexivity | events]].
    destruct (validators.validate_image_file (Some file))
      as [[|] error_msg] eqn:Valid;
      simpl negb; cbv iota; [|eexists; split; [reflexivity | events]].
    destruct (ocr.extract_text_from_image engine _)
      as [ocr_text | exc] eqn:Read;
      [|simpl log; rewrite <- ?app_assoc; simpl app;
        eexists; split; [reflexivity | events]].
    destruct (negb (truthy ocr_text) || negb (truthy (strip ocr_text)))
      eqn:Blank;
      [simpl log; rewrite <- ?app_assoc; simpl app;
       eexists; split; [reflexivity | events]|].
    apply blank_check_passes in Blank.
    destruct (call_model _ _ _ _ _ _) as [[response | exc'] w2] eqn:Called;
      apply call_model_world in Called; destruct Called as [_ [tried Log]].
    + simpl log; rewrite Log; simpl log; rewrite <- ?app_assoc; simpl app.
      eexists; split; [reflexivity | events].
      right; split; [exact Image|]; read_from file ocr_text.
    + destruct (show_model_error_world exc' w2) as [_ [Shown | Shown]];
        rewrite Shown, Log; simpl log; rewrite <- ?app_assoc; simpl app;
        (eexists; split; [reflexivity | events]);
        right; (split; [exact Image|]); read_from file ocr_text.
Qed.

(** What a completed, failed or refused turn has added to the message
    list: messages without images, or with the images of the lookup. *)
Lemma text_chat_appended (api_key model : string)
  (ui_data : TextChatInput) (w : World) :
  current_messages
    (snd (_handle_text_chat_tab post extract_query fetch_wikipedia_images
            api_key model ui_data w)) = []
  \/ exists appended,
       current_messages
         (snd (_handle_text_chat_tab post extract_query
                 fetch_wikipedia_images api_key model ui_data w))
       = (current_messages w ++ appended)%list
       /\ Forall
            (fun m =>
               state.images m = None
               \/ exists query url urls,
                    image_fetcher.fetch_images fetch_wikipedia_images
                      query 3 = (url :: urls, "wikipedia")
                    /\ state.images m = Some (url :: urls))
            appended.
Proof.
  unfold _handle_text_chat_tab; cbv zeta.
  destruct (clear_clicked ui_data); [left; reflexivity|].
  right.
  destruct (user_input ui_data) as [[|c text]|];
    try (exists []; split;
         [simpl snd; rewrite current_messages_init, app_nil_r; reflexivity
         | constructor]).
  destruct (validators.validate_text_input _ _) as [[|] error_msg];
    simpl negb; cbv iota;
    [|exists []; split;
      [simpl snd; rewrite current_messages_emit, current_messages_init,
         app_nil_r; reflexivity
      | constructor]].
  destruct (image_fetcher.detect_image_request (String c text)).
  - destruct (image_fetcher.fetch_images fetch_wikipedia_images
                (extract_query (String c text)) 3)
      as [[|url urls] source] eqn:Fetched.
    + destruct (call_model _ _ _ _ _ _) as [[response | exc] w2] eqn:Called;
        apply call_model_messages in Called; simpl snd.
      * rewrite current_messages_add_message, Called,
          current_messages_add_message, current_messages_emit,
          current_messages_add_message, current_messages_init,
          <- !app_assoc.
        eexists; split; [reflexivity | events].
      * unfold show_model_error; cbv zeta.
        destruct (contains "401" _ || contains "authentication" _
                  || contains "invalid" _);
          rewrite current_messages_emit, Called,
            current_messages_add_message, current_messages_emit,
            current_messages_add_message, current_messages_init,
            <- !app_assoc;
          (eexists; split; [reflexivity | events]).
    + destruct (call_model _ _ _ _ _ _) as [result w2] eqn:Called;
        apply call_model_messages in Called; simpl snd.
      rewrite current_messages_add_message, Called,
        current_messages_emit, current_messages_add_message,
        current_messages_init, <- !app_assoc.
      eexists; split; [reflexivity | events].
      right; exists (extract_query (String c text)), url, urls.
      split; [|reflexivity].
      rewrite Fetched; f_equal.
      unfold image_fetcher.fetch_images in Fetched.
      destruct (negb (truthy (extract_query (String c text))));
        [discriminate Fetched|].
      destruct (fetch_wikipedia_images (extract_query (String c text)) 3);
        inversion Fetched; reflexivity.
  - destruct (call_model _ _ _ _ _ _) as [[response | exc] w2] eqn:Called;
      apply call_model_messages in Called; simpl snd.
    + rewrite current_messages_add_chat_message,
        current_messages_add_message, Called,
        current_messages_add_message, current_messages_init,
        <- !app_assoc.
      eexists; split; [reflexivity | events].
    + unfold show_model_error; cbv zeta.
      destruct (contains "401" _ || contains "authentication" _
                || contains "invalid" _);
        rewrite current_messages_emit, Called,
          current_messages_add_message, current_messages_init;
        (eexists; split; [reflexivity | events]).
Qed.

End FlowExtras.

Lemma text_chat_rejects_invalid_input_witness :
  exists w',
    controller._handle_text_chat_tab stubs.post_answers stubs.extract_newton
      stubs.no_images stubs.test_key openrouter_client.DEFAULT_MODEL
      {| controller.student_level := Some "Beginner";
         controller.task_type := Some "Explain";
         controller.user_input := Some "   ";
         controller.clear_clicked := false |}
      stubs.fresh_world = (controller.Rejected, w')
    /\ controller.current_messages w'
       = controller.current_messages stubs.fresh_world
    /\ controller.log w'
       = (controller.log stubs.fresh_world
          ++ [ controller.ShowWarning
                 (snd (validators.validate_text_input
                         (validators.ArgStr "   ") "question/topic")) ])%list.
Proof.
  refine (text_chat_rejects_invalid_input stubs.post_answers
            stubs.extract_newton stubs.no_images stubs.test_key
            openrouter_client.DEFAULT_MODEL
            {| controller.student_level := Some "Beginner";
               controller.task_type := Some "Explain";
               controller.user_input := Some "   ";
               controller.clear_clicked := false |}
            stubs.fresh_world "   " eq_refl eq_refl _ eq_refl).
  discriminate.
Defined.


(* ================================================================= *)
(** ** The Orchestrator over the Wikipedia lookup *)

Section Attachments.

Import controller image_fetcher.

Variable post : openrouter_client.Request -> openrouter_client.PostOutcome.
Variable extract_query : string -> string.
Variable http_get : GetRequest -> GetOutcome.
Variable quote : string -> string.
Variable py_title : string -> string.

Lemma fetch_images_bounded (query : string) (limit : nat)
  (images : list string) (source : string) :
  fetch_images (fetch_wikipedia_images http_get quote py_title) query limit
  = (images, source) ->
  NoDup images
  /\ Forall (fun u : string => startswith u "http" = true /\ u <> "") images
  /\ List.length images <= limit.
Proof.
  unfold fetch_images.
  destruct (negb (truthy query));
    [intro E; inversion E; subst; repeat split; [constructor | constructor | simpl; lia]|].
  destruct (lookup_clean http_get quote py_title query limit)
    as ([Distinct Http] & Bound & _).
  destruct (fetch_wikipedia_images http_get quote py_title query limit);
    intro E; inversion E; subst;
    [repeat split; [constructor | constructor | simpl; lia]
    | repeat split; assumption].
Qed.

(** X30. Over the Wikipedia lookup, the text chat flow attaches images
    in a bounded way: every message of the list after an invocation was
    there before, or has no images, or has between one and three image
    URLs, all different, each starting with "http". *)
Theorem attached_images_bounded (api_key model : string)
  (ui_data : TextChatInput) (w : World) :
  Forall
    (fun m =>
       In m (current_messages w)
       \/ state.images m = None
       \/ exists urls,
            state.images m = Some urls
            /\ 1 <= List.length urls <= 3
            /\ NoDup urls
            /\ Forall (fun u : string => startswith u "http" = true) urls)
    (current_messages
       (snd (_handle_text_chat_tab post extract_query
               (fetch_wikipedia_images http_get quote py_title)
               api_key model ui_data w))).
Proof.
  destruct (text_chat_appended post extract_query
              (fetch_wikipedia_images http_get quote py_title)
              api_key model ui_data w)
    as [Cleared | [appended [Now Kinds]]].
  - rewrite Cleared; constructor.
  - rewrite Now; apply Forall_app; split.
    + apply Forall_forall; intros m Old; left; exact Old.
    + apply (Forall_impl _ (P := fun m =>
               state.images m = None
               \/ exists query url urls,
                    fetch_images
                      (fetch_wikipedia_images http_get quote py_title)
                      query 3 = (url :: urls, "wikipedia")
                    /\ state.images m = Some (url :: urls)));
        [|exact Kinds].
      intros m [None | (query & url & urls & Fetched & Attached)];
        right; [left; exact None | right].
      destruct (fetch_images_bounded _ _ _ _ Fetched)
        as (Distinct & Http & Bound).
      exists (url :: urls); split; [exact Attached|].
      split; [simpl in *; lia|]; split; [exact Distinct|].
      apply (Forall_impl _ (P := fun u : string =>
                                   startswith u "http" = true /\ u <> ""));
        [intros u [H _]; exact H | exact Http].
Qed.

End Attachments.

(* ================================================================= *)
(** ** From the cause of a failure to the message on the screen *)

Section ErrorHints.

Import openrouter_client.

Variable post : Request -> PostOutcome.

(** A plan has three models, or four. *)
Lemma plan_length (model : string) :
  List.length (models_to_try model) = 3
  \/ List.length (models_to_try model) = 4.
Proof.
  rewrite models_to_try_closed.
  destruct (str_in model FALLBACK_MODELS) eqn:Known.
  - apply str_in_true_iff in Known; left.
    repeat (destruct Known as [<- | Known]; [reflexivity|]).
    destruct Known.
  - apply str_in_false_iff in Known; right.
    rewrite (others_all _ Known); reflexivity.
Qed.

(** The composite error of a first candidate that fails for good. *)
Lemma first_failure_composite (prompt api_key model : string)
  (chat_history : option (list state.Message)) (system_message : string)
  (e : LLMError) :
  strip prompt <> "" ->
  openrouter_chat post (build_messages prompt chat_history system_message)
    api_key model "0.5" 700 = Raise (LLM e) ->
  is_model_error e = false ->
  generate_llm_response post prompt api_key model chat_history system_message
  = (Raise (LLM (LLMError_
                   ("Failed to generate response after trying "
                    ++ of_nat (List.length (models_to_try model))
                    ++ " model(s). Last error: " ++ message e))),
     [model]).
Proof.
  intros NB Fails Fatal.
  unfold generate_llm_response.
  rewrite (prompt_check_passes _ NB); cbv zeta.
  rewrite models_to_try_closed.
  rewrite (try_models_break _ _ _ _ _ e Fails Fatal).
  reflexivity.
Qed.

Ltac decide_hint :=
  unfold controller.show_model_error; cbv zeta;
  match goal with
  | |- (if ?c then _ else _) = _ =>
      let v := eval vm_compute in c in
      replace c with v by (vm_compute; reflexivity)
  end;
  reflexivity.

(** X28. What the user is told follows from why the first candidate
    failed.  When it fails with an error that is not a model error, the
    flow shows the authentication hint if the cause is a 401 response or
    a malformed key, and the generic failure message if the cause is a
    missing key, a 429 response, a connection failure or a time-out. *)
Theorem error_hint_by_cause (prompt api_key model : string)
  (chat_history : option (list state.Message)) (w : controller.World)
  (e : LLMError) :
  strip prompt <> "" ->
  openrouter_chat post
    (build_messages prompt chat_history default_system_message)
    api_key model "0.5" 700 = Raise (LLM e) ->
  is_model_error e = false ->
  exists exc,
    llm_client.generate_llm_response post prompt api_key model chat_history
    = (Raise exc, [model])
    /\ (e = auth_failed_error \/ e = key_format_error ->
        controller.show_model_error exc w
        = controller.emit (controller.ShowError controller.auth_hint) w)
    /\ (e = key_required_error \/ e = rate_limit_error
        \/ e = LLMError_
                 "Could not connect to OpenRouter API. Please check your internet connection."
        \/ e = LLMError_
                 "The request to OpenRouter timed out. Please try again." ->
        controller.show_model_error exc w
        = controller.emit (controller.ShowError controller.generic_failure) w).
Proof.
  intros NB Fails Fatal.
  eexists; split;
    [exact (first_failure_composite _ _ _ _ _ _ NB Fails Fatal)|].
  split.
  - intros [-> | ->]; destruct (plan_length model) as [-> | ->];
      decide_hint.
  - intros [-> | [-> | [-> | ->]]];
      destruct (plan_length model) as [-> | ->]; decide_hint.
Qed.

End ErrorHints.

Lemma error_hint_by_cause_witness :
  exists exc,
    llm_client.generate_llm_response stubs.post_unauthorized "hello"
      stubs.test_key openrouter_client.DEFAULT_MODEL None
    = (openrouter_client.Raise exc, [openrouter_client.DEFAULT_MODEL])
    /\ (openrouter_client.auth_failed_error
        = openrouter_client.auth_failed_error
        \/ openrouter_client.auth_failed_error
           = openrouter_client.key_format_error ->
        controller.show_model_error exc stubs.fresh_world
        = controller.emit (controller.ShowError controller.auth_hint)
            stubs.fresh_world)
    /\ (openrouter_client.auth_failed_error
        = openrouter_client.key_required_error
        \/ openrouter_client.auth_failed_error
           = openrouter_client.rate_limit_error
        \/ openrouter_client.auth_failed_error
           = openrouter_client.LLMError_
               "Could not connect to OpenRouter API. Please check your internet connection."
        \/ openrouter_client.auth_failed_error
           = openrouter_client.LLMError_
               "The request to OpenRouter timed out. Please try again." ->
        controller.show_model_error exc stubs.fresh_world
        = controller.emit (controller.ShowError controller.generic_failure)
            stubs.fresh_world).
Proof.
  refine (error_hint_by_cause stubs.post_unauthorized "hello" stubs.test_key
            openrouter_client.DEFAULT_MODEL None stubs.fresh_world
            openrouter_client.auth_failed_error _ eq_refl eq_refl).
  intro H; vm_compute in H; discriminate H.
Defined.

(* ================================================================= *)
(** ** The resolution of the API key *)

Section KeyResolution.

Import controller.



End KeyResolution.
